(** * FlaskTemplate: the greeting demo app and the class-based views

    Shallow embedding of the two Python modules of the repository:

    - [Demo]  : [小規模テンプレート/app.py], the two-route greeting handler;
    - [Views] : [中規模テンプレート/app/views/__init__.py], the class-based
                view layer (dispatch, template, redirect, list, detail, form,
                create, update and delete views).

    Calls into the web framework (flash, redirect, render_template) and into
    the form library (form construction, save_obj, delete_obj) are recorded
    as events of a trace, in call order. *)

From Stdlib Require Import Ascii String.
From stdpp Require Import base option list strings pretty gmap.

Open Scope string_scope.

(** ** Shared vocabulary *)

(** The HTTP verbs a request may carry. *)
Inductive HttpMethod := GET | POST | HEAD | PUT | DELETE | OPTIONS.

Global Instance HttpMethod_eq_dec : EqDecision HttpMethod.
Proof. solve_decision. Defined.

(** [request.method], as text. *)
Definition verb_name (verb : HttpMethod) : string :=
  match verb with
  | GET => "GET"
  | POST => "POST"
  | HEAD => "HEAD"
  | PUT => "PUT"
  | DELETE => "DELETE"
  | OPTIONS => "OPTIONS"
  end.

(** A request-side multi-dictionary ([request.args], [request.form]): an
    ordered list of pairs; a key may occur several times and look-ups see its
    first occurrence. *)
Definition MultiDict := list (string * string).

Fixpoint multidict_first (key : string) (d : MultiDict) : option string :=
  match d with
  | [] => None
  | (k, v) :: rest => if decide (k = key) then Some v else multidict_first key rest
  end.

(** [d.get(key, default)] *)
Definition multidict_get (key default : string) (d : MultiDict) : string :=
  match multidict_first key d with
  | Some v => v
  | None => default
  end.

(** ** The demo app *)

Module Demo.

Record Request := mkRequest {
  method : HttpMethod;
  path : string;
  args : MultiDict;     (* query string *)
  form : MultiDict      (* form body *)
}.

(** [request.form[key]] raises a [KeyError] naming the key when it is
    absent. *)
Inductive Exn := KeyError (key : string).

(** What [render_template(name, **context)] was called with. *)
Inductive Page := Rendered (template : string) (context : gmap string string).

Definition render_template (template : string) (context : gmap string string)
  : Exn + Page := inr (Rendered template context).

Definition multidict_getitem (key : string) (d : MultiDict) : Exn + string :=
  match multidict_first key d with
  | Some v => inr v
  | None => inl (KeyError key)
  end.

(** [greeting_user(greeting="Hello")]; [None] stands for the omitted
    argument, which takes the default. *)
Definition greeting_user (request : Request) (greeting_arg : option string)
  : Exn + Page :=
  let greeting := default "Hello" greeting_arg in
  match
    (if decide (method request = POST)
     then multidict_getitem "user_name" (form request)
     else inr (multidict_get "user_name" EmptyString (args request)))
  with
  | inl e => inl e
  | inr user_name =>
      render_template "greeting.html"
        (<["user_name" := user_name]> (<["greeting" := greeting]> ∅))
  end.

(** The two rules registered on [greeting_user]:
    ["/"] and ["/<string:greeting>"]. The string converter takes one
    non-empty path segment, that is, text without a slash. *)
Fixpoint has_slash (s : string) : bool :=
  match s with
  | EmptyString => false
  | String c rest => if decide (c = "/"%char) then true else has_slash rest
  end.

Definition match_rule (p : string) : option (option string) :=
  match p with
  | String "/"%char EmptyString => Some None
  | String "/"%char seg => if has_slash seg then None else Some (Some seg)
  | _ => None
  end.

(** Both rules accept GET and POST, and HEAD, which the framework adds to
    every rule that accepts GET; the framework answers OPTIONS itself. *)
Definition method_allowed (m : HttpMethod) : bool :=
  match m with
  | GET | POST | HEAD => true
  | _ => false
  end.

Inductive Outcome :=
| NotFound
| MethodNotAllowed
| AutomaticOptions
| Handled (r : Exn + Page).

Definition serve (request : Request) : Outcome :=
  match match_rule (path request) with
  | None => NotFound
  | Some greeting_arg =>
      if method_allowed (method request)
      then Handled (greeting_user request greeting_arg)
      else if decide (method request = OPTIONS) then AutomaticOptions
      else MethodNotAllowed
  end.

Definition greeting_page (greeting user_name : string) : Page :=
  Rendered "greeting.html"
    (<["user_name" := user_name]> (<["greeting" := greeting]> ∅)).

End Demo.

(** ** The class-based views *)

Module Views.

(** *** Records, models and forms (owned by the external libraries) *)

(** A persistence session, by identity. *)
Definition Session := nat.

(** A record of a model, by identity; [obj_session] is what
    [obj.query.session] gives. *)
Record Obj := mkObj { obj_ident : nat; obj_session : Session }.

(** A model class; [query_all] is what [model.query.all()] returns. *)
Record Model := mkModel { model_name : string; query_all : list Obj }.

(** What a form instance holds once it is built in the current request:
    the record it is bound to ([form.obj]), the submitted values, and the
    verdict of [validate_on_submit()]. *)
Record FormBody := mkFormBody {
  body_obj : option Obj;
  body_values : MultiDict;
  body_accepted : bool
}.

(** A form instance: every construction yields a new identity. *)
Record Form := mkForm { form_ident : nat; form_body : FormBody }.

(** A form class is its constructor, which takes the optional [obj]
    keyword. *)
Definition FormClass := option Obj → FormBody.

Definition form_obj (f : Form) : option Obj := body_obj (form_body f).
Definition validate_on_submit (f : Form) : bool := body_accepted (form_body f).

(** *** The view instance *)

(** The attributes the view layer assigns on [self]; [None] is an
    attribute that has not been assigned yet. [inst_object] is
    [Some None] once [self.object = None] has run. *)
Record Instance := mkInstance {
  inst_args : option (list string);
  inst_kwargs : option (gmap string string);
  inst_form : option Form;
  inst_object : option (option Obj)
}.

(** *** Template contexts and responses *)

(** What a context key may map to. [VView] is the view instance itself,
    with the attributes it has when the context is built; the library
    assigns none between that point and the rendering of the template. *)
Inductive Value :=
| VView (view : Instance)
| VKwargs (kw : gmap string string)
| VArgs (a : list string)
| VText (s : string)
| VForm (f : Form)
| VObject (o : Obj)
| VObjectList (l : list Obj)
| VNone.

(** What a handler returns. *)
Inductive Response :=
| Page (template : string) (context : gmap string Value)
| Redirect (location : string) (code : option nat)
| Custom (body : string).

(** *** Exceptions *)

Inductive Exn :=
| ImproperlyConfigured (message : string)
| AttributeError (attribute : string)
| TypeError (message : string)
| AssertionError (message : string)
| OtherError (message : string).

Inductive Res (A : Type) :=
| Ok (a : A)
| Raise (e : Exn).
Arguments Ok {A} a.
Arguments Raise {A} e.

(** *** The state of one request *)

(** Calls into the framework and the form library, in call order. *)
Inductive Event :=
| Flash (message category : string)
| RenderTemplate (template : string) (context : gmap string Value)
| RedirectTo (location : string) (code : option nat)
| NewForm (f : Form)
| SaveObj (f : Form) (session : Session)
| DeleteObj (f : Form) (session : Session).

Record World := mkWorld {
  self : Instance;
  trace : list Event;
  next_ident : nat
}.

Definition fresh_instance : Instance := mkInstance None None None None.
Definition fresh_world : World := mkWorld fresh_instance [] 0.

(** *** The monad of view code: state and exceptions *)

Definition M (A : Type) : Type := World → Res A * World.

Definition ret {A} (a : A) : M A := fun w => (Ok a, w).
Definition raise {A} (e : Exn) : M A := fun w => (Raise e, w).
Definition bind {A B} (m : M A) (k : A → M B) : M B :=
  fun w => match m w with
           | (Ok a, w') => k a w'
           | (Raise e, w') => (Raise e, w')
           end.

Notation "'let*' x ':=' m 'in' k" := (bind m (fun x => k))
  (at level 10, x name, m at level 100, k at level 200, only parsing).

Definition emit (e : Event) (w : World) : World :=
  mkWorld (self w) (trace w ++ [e]) (next_ident w).
Definition with_self (i : Instance) (w : World) : World :=
  mkWorld i (trace w) (next_ident w).

Definition call (e : Event) : M unit := fun w => (Ok tt, emit e w).

Definition store_args (a : list string) (w : World) : World :=
  with_self (mkInstance (Some a) (inst_kwargs (self w))
               (inst_form (self w)) (inst_object (self w))) w.
Definition store_kwargs (k : gmap string string) (w : World) : World :=
  with_self (mkInstance (inst_args (self w)) (Some k)
               (inst_form (self w)) (inst_object (self w))) w.
Definition store_form (f : Form) (w : World) : World :=
  with_self (mkInstance (inst_args (self w)) (inst_kwargs (self w))
               (Some f) (inst_object (self w))) w.
Definition store_object (o : option Obj) (w : World) : World :=
  with_self (mkInstance (inst_args (self w)) (inst_kwargs (self w))
               (inst_form (self w)) (Some o)) w.

Definition set_args (a : list string) : M unit := fun w => (Ok tt, store_args a w).
Definition set_kwargs (k : gmap string string) : M unit :=
  fun w => (Ok tt, store_kwargs k w).
Definition set_form (f : Form) : M unit := fun w => (Ok tt, store_form f w).
Definition set_object (o : option Obj) : M unit :=
  fun w => (Ok tt, store_object o w).

(** Reading an attribute that was never assigned raises
    [AttributeError]. *)
Definition read_attr {A} (name : string) (field : Instance → option A) : M A :=
  fun w => match field (self w) with
           | Some a => (Ok a, w)
           | None => (Raise (AttributeError name), w)
           end.

(** *** Subclasses *)

(** The library class a view class derives from. *)
Inductive Base :=
| View | TemplateView | RedirectView | ListView | DetailView
| FormView | CreateView | UpdateView | DeleteView.

Global Instance Base_eq_dec : EqDecision Base.
Proof. solve_decision. Defined.

(** The library view classes in the method resolution order of a class
    with base [b], [b] included. *)
Definition ancestors (b : Base) : list Base :=
  match b with
  | View => [View]
  | TemplateView => [TemplateView; View]
  | RedirectView => [RedirectView; View]
  | ListView => [ListView; TemplateView; View]
  | DetailView => [DetailView; TemplateView; View]
  | FormView => [FormView; TemplateView; View]
  | CreateView => [CreateView; FormView; DetailView; TemplateView; View]
  | UpdateView =>
      [UpdateView; CreateView; FormView; DetailView; TemplateView; View]
  | DeleteView => [DeleteView; FormView; DetailView; TemplateView; View]
  end.

(** Whether a class with base [b] inherits the methods of [ancestor]. *)
Definition inherits (b ancestor : Base) : bool :=
  existsb (fun c => bool_decide (c = ancestor)) (ancestors b).

(** An overriding definition of a resolver reads the instance and returns
    or raises. *)
Definition Getter (A : Type) : Type := Instance → Res A.

(** An overriding definition of a hook or of a verb handler besides may
    call into the framework; it does not reassign the attributes the
    library manages. *)
Definition Hook (A : Type) : Type := Instance → list Event * Res A.

Definition call_getter {A} (g : Getter A) : M A := fun w => (g (self w), w).
Definition call_hook {A} (h : Hook A) : M A :=
  fun w => (snd (h (self w)),
            mkWorld (self w) (trace w ++ fst (h (self w))) (next_ident w)).

(** A view class: its base, its [__name__], its class attributes, and the
    methods it defines itself ([None]: inherited from the base). A hook's
    [None] result stands for Python's [None] and every other falsy value:
    [x or y] discards such an [x]. *)
Record ViewClass := mkViewClass {
  base : Base;
  class_name : string;
  success_message : option string;
  template_name : option string;
  url : option string;
  model : option Model;
  context_object_list_name : string;
  context_object_name : string;
  context_form_name : string;
  form_class : option FormClass;
  success_url : option string;
  def_dispatch : option (Hook (option Response));
  def_get : option (list string → gmap string string → Hook Response);
  def_post : option (list string → gmap string string → Hook Response);
  def_get_success_message : option (Getter (option string));
  def_get_template_names : option (Getter string);
  def_get_context : option (Getter (gmap string Value));
  def_get_url : option (Getter string);
  def_get_object_list : option (Getter (list Obj));
  def_get_object : option (Getter Obj);
  def_get_success_url : option (Getter string);
  def_form_valid : option (Hook (option Response));
  def_form_invalid : option (Hook (option Response));
  def_get_db_session : option (Getter Session)
}.

(** A subclass that declares nothing: the class attributes keep the
    defaults of the library classes. *)
Definition declare (b : Base) (name : string) : ViewClass :=
  mkViewClass b name None None None None "object_list" "object" "form"
    None None None None None None None None None None None None None None None.


(** *** Framework calls *)

(** [flash(message, category)] *)
Definition flash (message category : string) : M unit :=
  call (Flash message category).

(** [redirect(location, code)]; the framework's default code is 302. *)
Definition redirect (location : string) (code : option nat) : M Response :=
  let* _ := call (RedirectTo location code) in ret (Redirect location code).

Definition default_code : option nat := Some 302.

(** [render_template(name, **context)] *)
Definition render_template (name : string) (context : gmap string Value)
  : M Response :=
  let* _ := call (RenderTemplate name context) in ret (Page name context).

(** Building a form instance: a new identity every time. *)
Definition new_form (fc : FormClass) (obj : option Obj) : M Form :=
  fun w =>
    let f := mkForm (next_ident w) (fc obj) in
    (Ok f, mkWorld (self w) (trace w ++ [NewForm f]) (S (next_ident w))).

(** Calling an attribute that is [None]. *)
Definition none_not_callable : Exn :=
  TypeError "'NoneType' object is not callable".

(** Python truthiness of a message: [None] and the empty text are falsy. *)
Definition truthy (message : option string) : bool :=
  match message with
  | None => false
  | Some s => if decide (s = EmptyString) then false else true
  end.

(** *** FlashMessageMixin *)

Definition get_success_message (C : ViewClass) : M (option string) :=
  match def_get_success_message C with
  | Some g => call_getter g
  | None => ret (success_message C)
  end.

Definition flash_message (category : string) (message : option string)
  : M unit :=
  if truthy message then
    match message with
    | Some s => flash s category
    | None => ret tt
    end
  else ret tt.

Definition flash_success_message (C : ViewClass) : M unit :=
  let* message := get_success_message C in
  flash_message "success" message.

(** *** View *)

(** The hook [dispatch]; the base definition is [pass]. *)
Definition dispatch (C : ViewClass) : M (option Response) :=
  match def_dispatch C with
  | Some h => call_hook h
  | None => ret None
  end.

Definition View_redirect (location : string) (code : option nat) : M Response :=
  redirect location code.

(** *** TemplateView *)

(** [self.get_template_names()]: the class's own definition, else the
    one of [TemplateView]; a class that inherits neither has no such
    attribute. *)
Definition get_template_names (C : ViewClass) : M string :=
  match def_get_template_names C with
  | Some g => call_getter g
  | None =>
      if inherits (base C) TemplateView then
        match template_name C with
        | None =>
            raise (ImproperlyConfigured
                     (class_name C ++
                      " must define either `template_name` or `get_template_names()`"))
        | Some t => ret t
        end
      else raise (AttributeError "get_template_names")
  end.

(** [self], as it stands. *)
Definition read_self : M Instance := fun w => (Ok (self w), w).

(** The hook [get_context]; the base definition returns [{}]. *)
Definition get_context (C : ViewClass) : M (gmap string Value) :=
  match def_get_context C with
  | Some g => call_getter g
  | None => ret ∅
  end.

(** [context = {'view': self, 'kwargs': self.kwargs}] followed by
    [context.update(self.get_context())]: the pairs of [get_context] win. *)
Definition TemplateView_get_default_context (C : ViewClass)
  : M (gmap string Value) :=
  let* view := read_self in
  let* kw := read_attr "kwargs" inst_kwargs in
  let* extra := get_context C in
  ret (extra ∪ (<["kwargs" := VKwargs kw]> (<["view" := VView view]> ∅))).

(** *** RedirectView *)

Definition get_url (C : ViewClass) : M string :=
  match def_get_url C with
  | Some g => call_getter g
  | None =>
      if inherits (base C) RedirectView then
        match url C with
        | None =>
            raise (ImproperlyConfigured
                     (class_name C ++ " must define either `url` or `get_url()`"))
        | Some u => ret u
        end
      else raise (AttributeError "get_url")
  end.

Definition RedirectView_get (C : ViewClass)
    (args : list string) (kwargs : gmap string string) : M Response :=
  let* _ := flash_success_message C in
  let* u := get_url C in
  redirect u default_code.

(** *** ListView *)

Definition get_context_object_list_name (C : ViewClass) : M string :=
  ret (context_object_list_name C).

Definition get_object_list (C : ViewClass) : M (list Obj) :=
  match def_get_object_list C with
  | Some g => call_getter g
  | None =>
      if inherits (base C) ListView then
        match model C with
        | None =>
            raise (ImproperlyConfigured
                     (class_name C ++
                      " must define either `model` or `get_object_list()`"))
        | Some m => ret (query_all m)
        end
      else raise (AttributeError "get_object_list")
  end.

(** In [context[name()] = value()] the right-hand side runs first. *)
Definition ListView_get_default_context (C : ViewClass)
  : M (gmap string Value) :=
  let* context := TemplateView_get_default_context C in
  let* object_list := get_object_list C in
  let* name := get_context_object_list_name C in
  ret (<[name := VObjectList object_list]> context).

(** *** DetailView *)

Definition get_context_object_name (C : ViewClass) : M string :=
  ret (context_object_name C).

Definition get_object (C : ViewClass) : M Obj :=
  match def_get_object C with
  | Some g => call_getter g
  | None =>
      if inherits (base C) DetailView then
        raise (ImproperlyConfigured
                 (class_name C ++ " must define `get_object()`"))
      else raise (AttributeError "get_object")
  end.

Definition DetailView_get_default_context (C : ViewClass)
  : M (gmap string Value) :=
  let* context := TemplateView_get_default_context C in
  let* object := get_object C in
  let* name := get_context_object_name C in
  ret (<[name := VObject object]> context).

(** *** FormView *)

Definition get_success_url (C : ViewClass) : M string :=
  match def_get_success_url C with
  | Some g => call_getter g
  | None =>
      if inherits (base C) FormView then
        match success_url C with
        | None =>
            raise (ImproperlyConfigured
                     (class_name C ++
                      " must define either `success_url` or `get_success_url()`"))
        | Some u => ret u
        end
      else raise (AttributeError "get_success_url")
  end.

Definition get_context_form_name (C : ViewClass) : M string :=
  ret (context_form_name C).

(** Whether [C] has both [FormView] and [DetailView] among its bases: then
    [DetailView] follows [FormView] in the method resolution order
    (C, FormView, FlashMessageMixin, DetailView, TemplateView, View). *)
Definition has_detail (C : ViewClass) : bool :=
  match base C with
  | CreateView | UpdateView | DeleteView => true
  | _ => false
  end.

(** [super().get_default_context()] as seen from [FormView]. *)
Definition FormView_super_get_default_context (C : ViewClass)
  : M (gmap string Value) :=
  if has_detail C then DetailView_get_default_context C
  else TemplateView_get_default_context C.

Definition FormView_get_default_context (C : ViewClass)
  : M (gmap string Value) :=
  let* context := FormView_super_get_default_context C in
  let* form := read_attr "form" inst_form in
  let* name := get_context_form_name C in
  ret (<[name := VForm form]> context).

(** [self.get_default_context()], resolved on the class of [self]. *)
Definition get_default_context (C : ViewClass) : M (gmap string Value) :=
  match base C with
  | ListView => ListView_get_default_context C
  | DetailView => DetailView_get_default_context C
  | FormView | CreateView | UpdateView | DeleteView =>
      FormView_get_default_context C
  | _ => TemplateView_get_default_context C
  end.

(** [TemplateView.get]: the template name is resolved before the context
    is built. *)
Definition TemplateView_get (C : ViewClass)
    (args : list string) (kwargs : gmap string string) : M Response :=
  let* name := get_template_names C in
  let* context := get_default_context C in
  render_template name context.

Definition DetailView_get (C : ViewClass)
    (args : list string) (kwargs : gmap string string) : M Response :=
  let* object := get_object C in
  let* _ := set_object (Some object) in
  TemplateView_get C args kwargs.

(** [super().get(...)] as seen from [FormView]. *)
Definition FormView_super_get (C : ViewClass)
    (args : list string) (kwargs : gmap string string) : M Response :=
  if has_detail C then DetailView_get C args kwargs
  else TemplateView_get C args kwargs.

Definition FormView_get_form (C : ViewClass) : M Form :=
  match form_class C with
  | None => raise none_not_callable
  | Some fc => new_form fc None
  end.

(** [CreateView.get_form] and [DeleteView.get_form]:
    [self.form_class(obj=self.get_object())]. *)
Definition CreateView_get_form (C : ViewClass) : M Form :=
  let* object := get_object C in
  match form_class C with
  | None => raise none_not_callable
  | Some fc => new_form fc (Some object)
  end.

Definition DeleteView_get_form (C : ViewClass) : M Form :=
  let* object := get_object C in
  match form_class C with
  | None => raise none_not_callable
  | Some fc => new_form fc (Some object)
  end.

Definition get_form (C : ViewClass) : M Form :=
  match base C with
  | CreateView | UpdateView => CreateView_get_form C
  | DeleteView => DeleteView_get_form C
  | _ => FormView_get_form C
  end.

(** The hooks [form_valid] and [form_invalid]; the base definitions are
    [pass]. *)
Definition form_valid (C : ViewClass) : M (option Response) :=
  match def_form_valid C with
  | Some h => call_hook h
  | None => ret None
  end.

Definition form_invalid (C : ViewClass) : M (option Response) :=
  match def_form_invalid C with
  | Some h => call_hook h
  | None => ret None
  end.

Definition FormView_form_valid_process (C : ViewClass) : M Response :=
  let* u := get_success_url C in
  redirect u default_code.

Definition FormView_form_invalid_process (C : ViewClass) : M Response :=
  let* args := read_attr "args" inst_args in
  let* kwargs := read_attr "kwargs" inst_kwargs in
  FormView_super_get C args kwargs.

Definition FormView_get (C : ViewClass)
    (args : list string) (kwargs : gmap string string) : M Response :=
  let* form := get_form C in
  let* _ := set_form form in
  FormView_super_get C args kwargs.

(** *** CreateView, UpdateView, DeleteView *)

(** [self.form.obj.query.session]; a form that holds no record has
    [obj] equal to [None], which has no [query]. *)
Definition get_db_session (C : ViewClass) : M Session :=
  match def_get_db_session C with
  | Some g => call_getter g
  | None =>
      let* form := read_attr "form" inst_form in
      match form_obj form with
      | None => raise (AttributeError "query")
      | Some o => ret (obj_session o)
      end
  end.

(** [form.save_obj(session)] and [form.delete_obj(session)] *)
Definition save_obj (f : Form) (session : Session) : M unit :=
  call (SaveObj f session).
Definition delete_obj (f : Form) (session : Session) : M unit :=
  call (DeleteObj f session).

Definition CreateView_form_valid_process (C : ViewClass) : M Response :=
  let* form := read_attr "form" inst_form in
  let* session := get_db_session C in
  let* _ := save_obj form session in
  let* form' := read_attr "form" inst_form in
  let* _ := set_object (form_obj form') in
  FormView_form_valid_process C.

Definition DeleteView_form_valid_process (C : ViewClass) : M Response :=
  let* form := read_attr "form" inst_form in
  let* session := get_db_session C in
  let* _ := delete_obj form session in
  let* _ := set_object None in
  FormView_form_valid_process C.

(** [self.form_valid_process()] and [self.form_invalid_process()],
    resolved on the class of [self]; [UpdateView] inherits from
    [CreateView]. *)
Definition form_valid_process (C : ViewClass) : M Response :=
  match base C with
  | CreateView | UpdateView => CreateView_form_valid_process C
  | DeleteView => DeleteView_form_valid_process C
  | _ => FormView_form_valid_process C
  end.

Definition form_invalid_process (C : ViewClass) : M Response :=
  FormView_form_invalid_process C.

(** [x or y] on a hook's result. *)
Definition or_else (x : option Response) (y : M Response) : M Response :=
  match x with
  | Some r => ret r
  | None => y
  end.

Definition FormView_post (C : ViewClass)
    (args : list string) (kwargs : gmap string string) : M Response :=
  let* built := get_form C in
  let* _ := set_form built in
  let* form := read_attr "form" inst_form in
  if validate_on_submit form then
    let* _ := flash_success_message C in
    let* r := form_valid C in
    or_else r (form_valid_process C)
  else
    let* r := form_invalid C in
    or_else r (form_invalid_process C).

(** *** Verb dispatch *)

Definition Handler : Type := list string → gmap string string → M Response.

(** [getattr(self, "get", None)] and [getattr(self, "post", None)]: the
    class's own definition, else the one inherited from its base. *)
Definition get_handler (C : ViewClass) : option Handler :=
  match def_get C with
  | Some h => Some (fun args kwargs => call_hook (h args kwargs))
  | None =>
      match base C with
      | View => None
      | TemplateView | ListView => Some (TemplateView_get C)
      | RedirectView => Some (RedirectView_get C)
      | DetailView => Some (DetailView_get C)
      | FormView | CreateView | UpdateView | DeleteView => Some (FormView_get C)
      end
  end.

Definition post_handler (C : ViewClass) : option Handler :=
  match def_post C with
  | Some h => Some (fun args kwargs => call_hook (h args kwargs))
  | None =>
      match base C with
      | FormView | CreateView | UpdateView | DeleteView => Some (FormView_post C)
      | _ => None
      end
  end.

(** The framework's [MethodView.dispatch_request(self, **kwargs)], as of
    Flask 2.2: it takes keyword arguments only, so a call with positional
    arguments is a [TypeError]; otherwise it calls the handler named after
    the lower-cased verb with the keyword arguments, HEAD falling back on
    [get]; a missing handler fails the assertion [meth is not None]. The
    classes of this model define no handler besides [get] and [post]. *)
Definition verb_handler (C : ViewClass) (verb : HttpMethod) : option Handler :=
  match verb with
  | GET | HEAD => get_handler C
  | POST => post_handler C
  | _ => None
  end.

Definition positional_arguments_refused (args : list string) : Exn :=
  TypeError ("MethodView.dispatch_request() takes 1 positional argument but "
             ++ pretty (S (length args)) ++ " were given").

Definition MethodView_dispatch_request (C : ViewClass) (verb : HttpMethod)
    (args : list string) (kwargs : gmap string string) : M Response :=
  match args with
  | _ :: _ => raise (positional_arguments_refused args)
  | [] =>
      match verb_handler C verb with
      | Some meth => meth [] kwargs
      | None =>
          raise (AssertionError
                   ("Unimplemented method '" ++ verb_name verb ++ "'"))
      end
  end.

(** [View.dispatch_request]:
    [self.dispatch() or super().dispatch_request( *args, **kwargs)]. *)
Definition dispatch_request (C : ViewClass) (verb : HttpMethod)
    (args : list string) (kwargs : gmap string string) : M Response :=
  let* _ := set_args args in
  let* _ := set_kwargs kwargs in
  let* r := dispatch C in
  or_else r (MethodView_dispatch_request C verb args kwargs).

(** *** Outcomes *)

(** [m] run in [w] returns [a]. *)
Definition returns {A} (m : M A) (w : World) (a : A) : Prop :=
  ∃ w', m w = (Ok a, w').

(** [m] only reads the instance. *)
Definition reads_only {A} (m : M A) : Prop :=
  ∃ g : Instance → Res A, ∀ w, m w = (g (self w), w).

(** [m] reads the instance and calls into the framework. *)
Definition hook_like {A} (m : M A) : Prop :=
  ∃ h : Hook A, ∀ w, m w = call_hook h w.

(** The flash calls [flash_success_message] makes for a message: one
    when the message is truthy, none otherwise. *)
Definition flashes (message : option string) : list Event :=
  if truthy message then
    match message with
    | Some s => [Flash s "success"]
    | None => []
    end
  else [].

(** The context [TemplateView.get_default_context] builds from the view
    instance, its keyword arguments and the pairs of [get_context]. *)
Definition default_context (view : Instance) (kwargs : gmap string string)
    (extra : gmap string Value) : gmap string Value :=
  extra ∪ (<["kwargs" := VKwargs kwargs]> (<["view" := VView view]> ∅)).

(** *** Sample subclasses *)

Definition with_template_name (t : string) (C : ViewClass) : ViewClass :=
  {| base := base C; class_name := class_name C;
     success_message := success_message C; template_name := Some t;
     url := url C; model := model C;
     context_object_list_name := context_object_list_name C;
     context_object_name := context_object_name C;
     context_form_name := context_form_name C;
     form_class := form_class C; success_url := success_url C;
     def_dispatch := def_dispatch C; def_get := def_get C;
     def_post := def_post C;
     def_get_success_message := def_get_success_message C;
     def_get_template_names := def_get_template_names C;
     def_get_context := def_get_context C; def_get_url := def_get_url C;
     def_get_object_list := def_get_object_list C;
     def_get_object := def_get_object C;
     def_get_success_url := def_get_success_url C;
     def_form_valid := def_form_valid C;
     def_form_invalid := def_form_invalid C;
     def_get_db_session := def_get_db_session C |}.

Definition with_success_message (s : string) (C : ViewClass) : ViewClass :=
  {| base := base C; class_name := class_name C;
     success_message := Some s; template_name := template_name C;
     url := url C; model := model C;
     context_object_list_name := context_object_list_name C;
     context_object_name := context_object_name C;
     context_form_name := context_form_name C;
     form_class := form_class C; success_url := success_url C;
     def_dispatch := def_dispatch C; def_get := def_get C;
     def_post := def_post C;
     def_get_success_message := def_get_success_message C;
     def_get_template_names := def_get_template_names C;
     def_get_context := def_get_context C; def_get_url := def_get_url C;
     def_get_object_list := def_get_object_list C;
     def_get_object := def_get_object C;
     def_get_success_url := def_get_success_url C;
     def_form_valid := def_form_valid C;
     def_form_invalid := def_form_invalid C;
     def_get_db_session := def_get_db_session C |}.

Definition with_url (u : string) (C : ViewClass) : ViewClass :=
  {| base := base C; class_name := class_name C;
     success_message := success_message C; template_name := template_name C;
     url := Some u; model := model C;
     context_object_list_name := context_object_list_name C;
     context_object_name := context_object_name C;
     context_form_name := context_form_name C;
     form_class := form_class C; success_url := success_url C;
     def_dispatch := def_dispatch C; def_get := def_get C;
     def_post := def_post C;
     def_get_success_message := def_get_success_message C;
     def_get_template_names := def_get_template_names C;
     def_get_context := def_get_context C; def_get_url := def_get_url C;
     def_get_object_list := def_get_object_list C;
     def_get_object := def_get_object C;
     def_get_success_url := def_get_success_url C;
     def_form_valid := def_form_valid C;
     def_form_invalid := def_form_invalid C;
     def_get_db_session := def_get_db_session C |}.

Definition with_model (m : Model) (C : ViewClass) : ViewClass :=
  {| base := base C; class_name := class_name C;
     success_message := success_message C; template_name := template_name C;
     url := url C; model := Some m;
     context_object_list_name := context_object_list_name C;
     context_object_name := context_object_name C;
     context_form_name := context_form_name C;
     form_class := form_class C; success_url := success_url C;
     def_dispatch := def_dispatch C; def_get := def_get C;
     def_post := def_post C;
     def_get_success_message := def_get_success_message C;
     def_get_template_names := def_get_template_names C;
     def_get_context := def_get_context C; def_get_url := def_get_url C;
     def_get_object_list := def_get_object_list C;
     def_get_object := def_get_object C;
     def_get_success_url := def_get_success_url C;
     def_form_valid := def_form_valid C;
     def_form_invalid := def_form_invalid C;
     def_get_db_session := def_get_db_session C |}.

Definition with_form (fc : FormClass) (success : string) (C : ViewClass)
  : ViewClass :=
  {| base := base C; class_name := class_name C;
     success_message := success_message C; template_name := template_name C;
     url := url C; model := model C;
     context_object_list_name := context_object_list_name C;
     context_object_name := context_object_name C;
     context_form_name := context_form_name C;
     form_class := Some fc; success_url := Some success;
     def_dispatch := def_dispatch C; def_get := def_get C;
     def_post := def_post C;
     def_get_success_message := def_get_success_message C;
     def_get_template_names := def_get_template_names C;
     def_get_context := def_get_context C; def_get_url := def_get_url C;
     def_get_object_list := def_get_object_list C;
     def_get_object := def_get_object C;
     def_get_success_url := def_get_success_url C;
     def_form_valid := def_form_valid C;
     def_form_invalid := def_form_invalid C;
     def_get_db_session := def_get_db_session C |}.

Definition with_get_object (g : Getter Obj) (C : ViewClass) : ViewClass :=
  {| base := base C; class_name := class_name C;
     success_message := success_message C; template_name := template_name C;
     url := url C; model := model C;
     context_object_list_name := context_object_list_name C;
     context_object_name := context_object_name C;
     context_form_name := context_form_name C;
     form_class := form_class C; success_url := success_url C;
     def_dispatch := def_dispatch C; def_get := def_get C;
     def_post := def_post C;
     def_get_success_message := def_get_success_message C;
     def_get_template_names := def_get_template_names C;
     def_get_context := def_get_context C; def_get_url := def_get_url C;
     def_get_object_list := def_get_object_list C;
     def_get_object := Some g;
     def_get_success_url := def_get_success_url C;
     def_form_valid := def_form_valid C;
     def_form_invalid := def_form_invalid C;
     def_get_db_session := def_get_db_session C |}.


Module Samples.

Definition Home : ViewClass :=
  with_template_name "home.html" (declare TemplateView "Home").

Definition Bare : ViewClass := declare TemplateView "Bare".

Definition Leave : ViewClass :=
  with_success_message "Bye" (with_url "/" (declare RedirectView "Leave")).

Definition course (n : nat) : Obj := mkObj n 7.
Definition Course : Model := mkModel "Course" [course 1; course 2].

Definition Courses : ViewClass :=
  with_model Course
    (with_template_name "courses.html" (declare ListView "Courses")).

(** A form class for one request: the submitted values and whether
    they validate. *)
Definition submitted (values : MultiDict) (accepted : bool) : FormClass :=
  fun obj => mkFormBody obj values accepted.

Definition Contact (values : MultiDict) (accepted : bool) : ViewClass :=
  with_form (submitted values accepted) "/thanks"
    (with_template_name "contact.html" (declare FormView "Contact")).

Definition CourseAdd : ViewClass :=
  with_get_object (fun _ => Ok (course 3))
    (with_form (submitted [("title", "Logic")] true) "/courses"
       (with_template_name "course_add.html"
          (declare CreateView "CourseAdd"))).

Definition CourseDelete : ViewClass :=
  with_get_object (fun _ => Ok (course 2))
    (with_form (submitted [] true) "/courses"
       (with_template_name "course_delete.html"
          (declare DeleteView "CourseDelete"))).

(** A request that has been dispatched with no URL arguments. *)
Definition dispatched : World :=
  store_kwargs ∅ (store_args [] fresh_world).

End Samples.

(** *** View.register and the endpoint name *)

(** Class names are taken to be ASCII identifiers; on those [str.lower()]
    is the ASCII lower-casing below. The character classes of the pattern
    are ASCII ranges in any case. *)
Definition ascii_name (s : string) : bool :=
  forallb (fun c => Nat.ltb (nat_of_ascii c) 128) (list_ascii_of_string s).

(** [[A-Z]], [[a-z]] and [[0-9]]. *)
Definition is_upper (c : ascii) : bool :=
  Nat.leb 65 (nat_of_ascii c) && Nat.leb (nat_of_ascii c) 90.
Definition is_lower (c : ascii) : bool :=
  Nat.leb 97 (nat_of_ascii c) && Nat.leb (nat_of_ascii c) 122.
Definition is_digit (c : ascii) : bool :=
  Nat.leb 48 (nat_of_ascii c) && Nat.leb (nat_of_ascii c) 57.

Definition lower_char (c : ascii) : ascii :=
  if is_upper c then ascii_of_nat (nat_of_ascii c + 32) else c.

Fixpoint lower (s : string) : string :=
  match s with
  | EmptyString => EmptyString
  | String c rest => String (lower_char c) (lower rest)
  end.

Definition first_char (s : string) : option ascii :=
  match s with
  | EmptyString => None
  | String c _ => Some c
  end.

(** Whether the pattern
    [((?<=[a-z0-9])[A-Z]|(?!^)[A-Z](?=[a-z]))]
    matches the character [c], given the character before it ([None] at
    the start of the text) and the one after it ([None] at the end). *)
Definition camel_to_underscore_matches
    (prev : option ascii) (c : ascii) (next : option ascii) : bool :=
  is_upper c
  && (match prev with
      | Some p => is_lower p || is_digit p
      | None => false
      end
      || (match prev with Some _ => true | None => false end)
         && match next with
            | Some n => is_lower n
            | None => false
            end).

(** [camel_to_underscore.sub(r'_\1', text)], scanning from a position
    whose preceding character is [prev]: every match is one character wide
    and is replaced by an underscore followed by itself. *)
Fixpoint camel_to_underscore_sub_from (prev : option ascii) (s : string)
  : string :=
  match s with
  | EmptyString => EmptyString
  | String c rest =>
      let tail := String c (camel_to_underscore_sub_from (Some c) rest) in
      if camel_to_underscore_matches prev c (first_char rest)
      then String "_"%char tail
      else tail
  end.

Definition camel_to_underscore_sub (text : string) : string :=
  camel_to_underscore_sub_from None text.

(** [camel_to_underscore.sub(r'_\1', cls.__name__).lower()] *)
Definition endpoint_name (name : string) : string :=
  lower (camel_to_underscore_sub name).

(** A call [blueprint.add_url_rule(route, view_func=cls.as_view(name))]:
    the route, the name of the view function and the class it wraps. *)
Record Rule := mkRule {
  rule_route : string;
  rule_endpoint : string;
  rule_view : string
}.

(** [View.register(blueprint, route, name=None)]; the blueprint is the
    list of the rules added to it so far. *)
Definition register (C : ViewClass) (blueprint : list Rule)
    (route : string) (name : option string) : list Rule :=
  let name :=
    match name with
    | None => endpoint_name (class_name C)
    | Some n => n
    end in
  blueprint ++ [mkRule route name (class_name C)].

(** No character of [s] is in [[A-Z]]. *)
Fixpoint no_upper (s : string) : bool :=
  match s with
  | EmptyString => true
  | String c rest => negb (is_upper c) && no_upper rest
  end.

(** [s] without its underscores. *)
Fixpoint remove_underscores (s : string) : string :=
  match s with
  | EmptyString => EmptyString
  | String c rest =>
      if decide (c = "_"%char) then remove_underscores rest
      else String c (remove_underscores rest)
  end.

(** *** Changing the base of a class *)

Definition with_base (b : Base) (C : ViewClass) : ViewClass :=
  {| base := b; class_name := class_name C;
     success_message := success_message C; template_name := template_name C;
     url := url C; model := model C;
     context_object_list_name := context_object_list_name C;
     context_object_name := context_object_name C;
     context_form_name := context_form_name C;
     form_class := form_class C; success_url := success_url C;
     def_dispatch := def_dispatch C; def_get := def_get C;
     def_post := def_post C;
     def_get_success_message := def_get_success_message C;
     def_get_template_names := def_get_template_names C;
     def_get_context := def_get_context C; def_get_url := def_get_url C;
     def_get_object_list := def_get_object_list C;
     def_get_object := def_get_object C;
     def_get_success_url := def_get_success_url C;
     def_form_valid := def_form_valid C;
     def_form_invalid := def_form_invalid C;
     def_get_db_session := def_get_db_session C |}.

(** Setting the hooks of a form view. *)
Definition with_form_hooks
    (valid invalid : option (Hook (option Response))) (C : ViewClass)
  : ViewClass :=
  {| base := base C; class_name := class_name C;
     success_message := success_message C; template_name := template_name C;
     url := url C; model := model C;
     context_object_list_name := context_object_list_name C;
     context_object_name := context_object_name C;
     context_form_name := context_form_name C;
     form_class := form_class C; success_url := success_url C;
     def_dispatch := def_dispatch C; def_get := def_get C;
     def_post := def_post C;
     def_get_success_message := def_get_success_message C;
     def_get_template_names := def_get_template_names C;
     def_get_context := def_get_context C; def_get_url := def_get_url C;
     def_get_object_list := def_get_object_list C;
     def_get_object := def_get_object C;
     def_get_success_url := def_get_success_url C;
     def_form_valid := valid;
     def_form_invalid := invalid;
     def_get_db_session := def_get_db_session C |}.

(** Setting the hook [dispatch]. *)
Definition with_dispatch (h : Hook (option Response)) (C : ViewClass)
  : ViewClass :=
  {| base := base C; class_name := class_name C;
     success_message := success_message C; template_name := template_name C;
     url := url C; model := model C;
     context_object_list_name := context_object_list_name C;
     context_object_name := context_object_name C;
     context_form_name := context_form_name C;
     form_class := form_class C; success_url := success_url C;
     def_dispatch := Some h; def_get := def_get C;
     def_post := def_post C;
     def_get_success_message := def_get_success_message C;
     def_get_template_names := def_get_template_names C;
     def_get_context := def_get_context C; def_get_url := def_get_url C;
     def_get_object_list := def_get_object_list C;
     def_get_object := def_get_object C;
     def_get_success_url := def_get_success_url C;
     def_form_valid := def_form_valid C;
     def_form_invalid := def_form_invalid C;
     def_get_db_session := def_get_db_session C |}.

(** Whether [out] is [name] lower-cased with single underscores put in
    front of some of its upper-case letters, the first character
    excepted ([first] says whether [name] starts at the first character). *)
Fixpoint underscores_inserted (first : bool) (name out : string) : bool :=
  match name with
  | EmptyString =>
      match out with
      | EmptyString => true
      | String _ _ => false
      end
  | String c rest =>
      match out with
      | EmptyString => false
      | String d out' =>
          (bool_decide (d = lower_char c) && underscores_inserted false rest out')
          || (negb first && is_upper c && bool_decide (d = "_"%char)
              && match out' with
                 | EmptyString => false
                 | String d' out'' =>
                     bool_decide (d' = lower_char c)
                     && underscores_inserted false rest out''
                 end)
      end
  end.

Module MoreSamples.

(** A create view whose form class drops the record it is given. *)
Definition Unbound : ViewClass :=
  with_get_object (fun _ => Ok (Samples.course 3))
    (with_form (fun _ => mkFormBody None [("title", "Logic")] true) "/courses"
       (with_template_name "course_add.html" (declare CreateView "Unbound"))).

(** A create view whose submitted form is rejected. *)
Definition CourseAddRejected : ViewClass :=
  with_get_object (fun _ => Ok (Samples.course 3))
    (with_form (Samples.submitted [("title", EmptyString)] false) "/courses"
       (with_template_name "course_add.html"
          (declare CreateView "CourseAddRejected"))).

(** A template view whose [dispatch] sends everybody to the login page
    with [self.redirect('/login')]. *)
Definition Members : ViewClass :=
  with_dispatch
    (fun _ => ([RedirectTo "/login" None], Ok (Some (Redirect "/login" None))))
    Samples.Home.




(** A redirect view that declares a message but no URL. *)
Definition Nowhere : ViewClass :=
  with_success_message "Bye" (declare RedirectView "Nowhere").

(** A create view whose [form_valid] answers itself. *)
Definition CourseDraft : ViewClass :=
  with_form_hooks
    (Some (fun _ => ([Flash "Kept as a draft" "info"], Ok (Some (Custom "draft")))))
    None
    (with_success_message "Saved" Samples.CourseAdd).

(** A form view whose [form_invalid] answers itself. *)
Definition ContactStrict : ViewClass :=
  with_form_hooks None
    (Some (fun _ => ([], Ok (Some (Custom "rejected")))))
    (with_success_message "Sent" (Samples.Contact [("email", "nope")] false)).

(** Create and delete views without a success URL. *)
Definition CourseAddNoUrl : ViewClass :=
  with_get_object (fun _ => Ok (Samples.course 3))
    {| base := CreateView; class_name := "CourseAddNoUrl";
       success_message := None; template_name := None;
       url := None; model := None;
       context_object_list_name := "object_list";
       context_object_name := "object";
       context_form_name := "form";
       form_class := Some (Samples.submitted [("title", "Logic")] true);
       success_url := None;
       def_dispatch := None; def_get := None; def_post := None;
       def_get_success_message := None; def_get_template_names := None;
       def_get_context := None; def_get_url := None;
       def_get_object_list := None; def_get_object := None;
       def_get_success_url := None; def_form_valid := None;
       def_form_invalid := None; def_get_db_session := None |}.

Definition CourseDeleteNoUrl : ViewClass :=
  with_base DeleteView CourseAddNoUrl.

(** A form view without a form class. *)
Definition Formless : ViewClass :=
  with_template_name "formless.html" (declare FormView "Formless").

(** A detail view of one course. *)
Definition CourseDetail : ViewClass :=
  with_get_object (fun _ => Ok (Samples.course 1))
    (with_template_name "course.html" (declare DetailView "CourseDetail")).

End MoreSamples.

End Views.

(** ** Theorems about the class-based views *)

Import Views.

(** *** Running view code *)

Lemma bind_ok {A B} (m : M A) (k : A → M B) w a w' :
  m w = (Ok a, w') → bind m k w = k a w'.
Proof. intros H. unfold bind. by rewrite H. Qed.

Lemma bind_raise {A B} (m : M A) (k : A → M B) w e w' :
  m w = (Raise e, w') → bind m k w = (Raise e, w').
Proof. intros H. unfold bind. by rewrite H. Qed.

Lemma world_eta w : mkWorld (self w) (trace w) (next_ident w) = w.
Proof. by destruct w. Qed.

Lemma reads_only_ret {A} (a : A) : reads_only (ret a).
Proof. by exists (fun _ => Ok a). Qed.

Lemma reads_only_raise {A} e : reads_only (@raise A e).
Proof. by exists (fun _ => Raise e). Qed.

Lemma reads_only_call_getter {A} (g : Getter A) : reads_only (call_getter g).
Proof. by exists g. Qed.

Lemma reads_only_read_attr {A} name (field : Instance → option A) :
  reads_only (read_attr name field).
Proof.
  exists (fun i => match field i with
                   | Some a => Ok a
                   | None => Raise (AttributeError name)
                   end).
  intros w. unfold read_attr. by destruct (field (self w)).
Qed.

Lemma reads_only_bind {A B} (m : M A) (k : A → M B) :
  reads_only m → (∀ a, reads_only (k a)) → reads_only (bind m k).
Proof.
  intros [g Hg] Hk.
  exists (fun i => match g i with
                   | Ok a => fst (k a (mkWorld i [] 0))
                   | Raise e => Raise e
                   end).
  intros w. unfold bind. rewrite Hg.
  destruct (g (self w)) as [a|e]; [|done].
  destruct (Hk a) as [ga Hga]. by rewrite !Hga.
Qed.

Lemma reads_only_run {A} (m : M A) w r w' :
  reads_only m → m w = (r, w') → w' = w.
Proof. intros [g Hg] H. rewrite Hg in H. congruence. Qed.

Lemma reads_only_same_self {A} (m : M A) w1 w2 a :
  reads_only m → self w1 = self w2 → returns m w1 a → m w2 = (Ok a, w2).
Proof.
  intros [g Hg] Hs [w' H]. rewrite Hg in H. rewrite Hg, <- Hs. congruence.
Qed.

Lemma reads_only_returns {A} (m : M A) w a :
  reads_only m → returns m w a → m w = (Ok a, w).
Proof. intros Hm. by apply reads_only_same_self. Qed.

Create HintDb getters.
#[local] Hint Resolve reads_only_ret reads_only_raise reads_only_call_getter
  reads_only_read_attr : getters.

Ltac getter :=
  unfold get_success_message, get_template_names, get_context, get_url,
    get_object_list, get_object, get_success_url, get_db_session,
    get_context_object_list_name, get_context_object_name,
    get_context_form_name;
  repeat (first [ apply reads_only_bind; [|intros ?] | case_match ]);
  auto with getters.

Lemma get_success_message_reads C : reads_only (get_success_message C).
Proof. getter. Qed.
Lemma get_template_names_reads C : reads_only (get_template_names C).
Proof. getter. Qed.
Lemma get_context_reads C : reads_only (get_context C).
Proof. getter. Qed.
Lemma get_url_reads C : reads_only (get_url C).
Proof. getter. Qed.
Lemma get_object_list_reads C : reads_only (get_object_list C).
Proof. getter. Qed.
Lemma get_object_reads C : reads_only (get_object C).
Proof. getter. Qed.
Lemma get_success_url_reads C : reads_only (get_success_url C).
Proof. getter. Qed.
Lemma get_db_session_reads C : reads_only (get_db_session C).
Proof. getter. Qed.

#[local] Hint Resolve get_success_message_reads get_template_names_reads
  get_context_reads get_url_reads get_object_list_reads get_object_reads
  get_success_url_reads get_db_session_reads : getters.

(** *** Hooks *)

Lemma hook_like_call_hook {A} (h : Hook A) : hook_like (call_hook h).
Proof. by exists h. Qed.

Lemma hook_like_ret {A} (a : A) : hook_like (ret a).
Proof.
  exists (fun _ => ([], Ok a)). intros w. unfold call_hook, ret. simpl.
  by rewrite app_nil_r, world_eta.
Qed.


Lemma form_valid_hook_like C : hook_like (form_valid C).
Proof.
  unfold form_valid. case_match; auto using hook_like_call_hook, hook_like_ret.
Qed.

Lemma form_invalid_hook_like C : hook_like (form_invalid C).
Proof.
  unfold form_invalid. case_match; auto using hook_like_call_hook, hook_like_ret.
Qed.

(** A hook leaves the instance and the identities alone and extends the
    trace. *)
Lemma hook_like_run {A} (m : M A) w r w' :
  hook_like m → m w = (r, w') →
  self w' = self w ∧ next_ident w' = next_ident w
  ∧ ∃ events, trace w' = (trace w ++ events)%list.
Proof.
  intros [h Hh] H. rewrite Hh in H. unfold call_hook in H.
  injection H as _ <-. simpl. eauto.
Qed.

(** A hook's result depends on the instance only. *)
Lemma hook_like_same_self {A} (m : M A) w1 w2 a :
  hook_like m → self w1 = self w2 → returns m w1 a →
  ∃ w2', m w2 = (Ok a, w2').
Proof.
  intros [h Hh] Hs [w' H]. rewrite Hh in H. rewrite Hh.
  unfold call_hook in *. rewrite <- Hs.
  injection H as -> _. eauto.
Qed.

(** *** The resolvers *)

(** C4: on a class that inherits the resolver, each resolver raises
    [ImproperlyConfigured], with a message that starts with the name of the
    class, when the class supplies neither the attribute nor its own
    definition of the resolver; it returns the attribute when that is
    supplied, and runs the class's own definition, not the check, when that
    is supplied. [get_object] has no attribute to fall back on. A class
    that neither inherits nor defines a resolver has no such method. *)
Theorem resolvers_improperly_configured (C : ViewClass) (w : World) :
  (* TemplateView.get_template_names *)
  (inherits (base C) TemplateView = true →
   def_get_template_names C = None → template_name C = None →
   get_template_names C w
   = (Raise (ImproperlyConfigured
        (class_name C ++
         " must define either `template_name` or `get_template_names()`")), w))
  ∧ (∀ t, inherits (base C) TemplateView = true →
          def_get_template_names C = None → template_name C = Some t →
          get_template_names C w = (Ok t, w))
  ∧ (∀ g, def_get_template_names C = Some g →
          get_template_names C w = (g (self w), w))
  ∧ (inherits (base C) TemplateView = false →
     def_get_template_names C = None →
     get_template_names C w = (Raise (AttributeError "get_template_names"), w))
  (* RedirectView.get_url *)
  ∧ (inherits (base C) RedirectView = true →
     def_get_url C = None → url C = None →
     get_url C w
     = (Raise (ImproperlyConfigured
          (class_name C ++ " must define either `url` or `get_url()`")), w))
  ∧ (∀ u, inherits (base C) RedirectView = true →
          def_get_url C = None → url C = Some u → get_url C w = (Ok u, w))
  ∧ (∀ g, def_get_url C = Some g → get_url C w = (g (self w), w))
  ∧ (inherits (base C) RedirectView = false → def_get_url C = None →
     get_url C w = (Raise (AttributeError "get_url"), w))
  (* ListView.get_object_list *)
  ∧ (inherits (base C) ListView = true →
     def_get_object_list C = None → model C = None →
     get_object_list C w
     = (Raise (ImproperlyConfigured
          (class_name C ++
           " must define either `model` or `get_object_list()`")), w))
  ∧ (∀ m, inherits (base C) ListView = true →
          def_get_object_list C = None → model C = Some m →
          get_object_list C w = (Ok (query_all m), w))
  ∧ (∀ g, def_get_object_list C = Some g →
          get_object_list C w = (g (self w), w))
  ∧ (inherits (base C) ListView = false → def_get_object_list C = None →
     get_object_list C w = (Raise (AttributeError "get_object_list"), w))
  (* DetailView.get_object *)
  ∧ (inherits (base C) DetailView = true →
     def_get_object C = None →
     get_object C w
     = (Raise (ImproperlyConfigured
          (class_name C ++ " must define `get_object()`")), w))
  ∧ (∀ g, def_get_object C = Some g → get_object C w = (g (self w), w))
  ∧ (inherits (base C) DetailView = false → def_get_object C = None →
     get_object C w = (Raise (AttributeError "get_object"), w))
  (* FormView.get_success_url *)
  ∧ (inherits (base C) FormView = true →
     def_get_success_url C = None → success_url C = None →
     get_success_url C w
     = (Raise (ImproperlyConfigured
          (class_name C ++
           " must define either `success_url` or `get_success_url()`")), w))
  ∧ (∀ u, inherits (base C) FormView = true →
          def_get_success_url C = None → success_url C = Some u →
          get_success_url C w = (Ok u, w))
  ∧ (∀ g, def_get_success_url C = Some g →
          get_success_url C w = (g (self w), w))
  ∧ (inherits (base C) FormView = false → def_get_success_url C = None →
     get_success_url C w = (Raise (AttributeError "get_success_url"), w)).
Proof.
  unfold get_template_names, get_url, get_object_list, get_object,
    get_success_url.
  repeat split; intros; repeat match goal with H : _ = _ |- _ => rewrite H end;
    reflexivity.
Qed.

Lemma resolvers_improperly_configured_witness :
  get_template_names Samples.Bare fresh_world
  = (Raise (ImproperlyConfigured
       "Bare must define either `template_name` or `get_template_names()`"),
     fresh_world)
  ∧ get_template_names Samples.Home fresh_world = (Ok "home.html", fresh_world)
  ∧ get_url MoreSamples.Nowhere fresh_world
    = (Raise (ImproperlyConfigured
         "Nowhere must define either `url` or `get_url()`"), fresh_world)
  ∧ get_url Samples.Leave fresh_world = (Ok "/", fresh_world)
  ∧ get_object_list (declare ListView "Courses") fresh_world
    = (Raise (ImproperlyConfigured
         "Courses must define either `model` or `get_object_list()`"),
       fresh_world)
  ∧ get_object_list Samples.Courses fresh_world
    = (Ok [Samples.course 1; Samples.course 2], fresh_world)
  ∧ get_object (declare DetailView "Course") fresh_world
    = (Raise (ImproperlyConfigured "Course must define `get_object()`"),
       fresh_world)
  ∧ get_object Samples.CourseAdd fresh_world
    = (Ok (Samples.course 3), fresh_world)
  ∧ get_success_url (declare CreateView "CourseAdd") fresh_world
    = (Raise (ImproperlyConfigured
         "CourseAdd must define either `success_url` or `get_success_url()`"),
       fresh_world)
  ∧ get_success_url Samples.CourseAdd fresh_world = (Ok "/courses", fresh_world)
  ∧ get_object Samples.Bare fresh_world
    = (Raise (AttributeError "get_object"), fresh_world).
Proof.
  split; [|split; [|split; [|split; [|split; [|split; [|split; [|split;
    [|split; [|split]]]]]]]]].
  - apply (resolvers_improperly_configured Samples.Bare fresh_world);
      reflexivity.
  - apply (resolvers_improperly_configured Samples.Home fresh_world);
      reflexivity.
  - apply (resolvers_improperly_configured MoreSamples.Nowhere fresh_world);
      reflexivity.
  - apply (resolvers_improperly_configured Samples.Leave fresh_world);
      reflexivity.
  - apply (resolvers_improperly_configured (declare ListView "Courses")
             fresh_world); reflexivity.
  - destruct (resolvers_improperly_configured Samples.Courses fresh_world)
      as (_ & _ & _ & _ & _ & _ & _ & _ & _ & Hmodel & _).
    apply (Hmodel Samples.Course); reflexivity.
  - apply (resolvers_improperly_configured (declare DetailView "Course")
             fresh_world); reflexivity.
  - destruct (resolvers_improperly_configured Samples.CourseAdd fresh_world)
      as (_ & _ & _ & _ & _ & _ & _ & _ & _ & _ & _ & _ & _ & Hown & _).
    apply (Hown (fun _ => Ok (Samples.course 3))). reflexivity.
  - apply (resolvers_improperly_configured (declare CreateView "CourseAdd")
             fresh_world); reflexivity.
  - apply (resolvers_improperly_configured Samples.CourseAdd fresh_world);
      reflexivity.
  - apply (resolvers_improperly_configured Samples.Bare fresh_world);
      reflexivity.
Defined.

(** *** Dispatch *)

Lemma dispatch_request_run C verb args kwargs w r w1 :
  dispatch C (store_kwargs kwargs (store_args args w)) = (Ok r, w1) →
  dispatch_request C verb args kwargs w
  = or_else r (MethodView_dispatch_request C verb args kwargs) w1.
Proof.
  intros H. unfold dispatch_request, bind, set_args, set_kwargs. by rewrite H.
Qed.

Lemma dispatch_base C w : def_dispatch C = None → dispatch C w = (Ok None, w).
Proof. intros H. unfold dispatch. by rewrite H. Qed.

Lemma dispatch_own C h w events r :
  def_dispatch C = Some h → h (self w) = (events, r) →
  dispatch C w = (r, mkWorld (self w) (trace w ++ events) (next_ident w)).
Proof. intros H Hh. unfold dispatch, call_hook. by rewrite H, Hh. Qed.

Lemma MethodView_dispatch_request_get C kwargs meth :
  get_handler C = Some meth →
  MethodView_dispatch_request C GET [] kwargs = meth [] kwargs.
Proof.
  intros H. unfold MethodView_dispatch_request, verb_handler. by rewrite H.
Qed.

Lemma MethodView_dispatch_request_post C kwargs meth :
  post_handler C = Some meth →
  MethodView_dispatch_request C POST [] kwargs = meth [] kwargs.
Proof.
  intros H. unfold MethodView_dispatch_request, verb_handler. by rewrite H.
Qed.

(** C5: [dispatch_request] first stores the positional and keyword
    arguments on the instance; the class's [dispatch()] then runs on that
    instance. A truthy result of the hook is the result of the request and
    no verb handler runs; after a falsy one, and always when the class
    keeps the base hook, which returns [None], the result is that of the
    framework's verb dispatch called with the same arguments. Verb dispatch
    calls the class's own [get] or [post], else the one its base provides,
    with the keyword arguments: GET goes to [get], POST to [post]. *)
Theorem dispatch_request_hook_then_verb
    (C : ViewClass) (verb : HttpMethod)
    (args : list string) (kwargs : gmap string string) (w : World) :
  let w0 := store_kwargs kwargs (store_args args w) in
  inst_args (self w0) = Some args
  ∧ inst_kwargs (self w0) = Some kwargs
  ∧ (∀ h events r,
       def_dispatch C = Some h →
       h (self w0) = (events, Ok (Some r)) →
       dispatch_request C verb args kwargs w
       = (Ok r, mkWorld (self w0) (trace w ++ events) (next_ident w)))
  ∧ (∀ h events,
       def_dispatch C = Some h →
       h (self w0) = (events, Ok None) →
       dispatch_request C verb args kwargs w
       = MethodView_dispatch_request C verb args kwargs
           (mkWorld (self w0) (trace w ++ events) (next_ident w)))
  ∧ (def_dispatch C = None →
     dispatch_request C verb args kwargs w
     = MethodView_dispatch_request C verb args kwargs w0)
  ∧ (∀ own, def_get C = Some own →
            MethodView_dispatch_request C GET [] kwargs
            = call_hook (own [] kwargs))
  ∧ (def_get C = None →
     MethodView_dispatch_request C GET [] kwargs
     = match base C with
       | View => raise (AssertionError "Unimplemented method 'GET'")
       | TemplateView | ListView => TemplateView_get C [] kwargs
       | RedirectView => RedirectView_get C [] kwargs
       | DetailView => DetailView_get C [] kwargs
       | FormView | CreateView | UpdateView | DeleteView =>
           FormView_get C [] kwargs
       end)
  ∧ (∀ own, def_post C = Some own →
            MethodView_dispatch_request C POST [] kwargs
            = call_hook (own [] kwargs))
  ∧ (def_post C = None →
     MethodView_dispatch_request C POST [] kwargs
     = if inherits (base C) FormView then FormView_post C [] kwargs
       else raise (AssertionError "Unimplemented method 'POST'"))
  ∧ (∀ a rest,
       MethodView_dispatch_request C verb (a :: rest) kwargs
       = raise (positional_arguments_refused (a :: rest))).
Proof.
  intros w0.
  split; [reflexivity|]. split; [reflexivity|].
  split; [|split; [|split; [|split; [|split; [|split; [|split]]]]]].
  - intros h events r Hown Hh.
    by rewrite (dispatch_request_run _ _ _ _ _ _ _ (dispatch_own _ _ _ _ _ Hown Hh)).
  - intros h events Hown Hh.
    by rewrite (dispatch_request_run _ _ _ _ _ _ _ (dispatch_own _ _ _ _ _ Hown Hh)).
  - intros Hd.
    by rewrite (dispatch_request_run _ _ _ _ _ _ _ (dispatch_base C w0 Hd)).
  - intros own H.
    apply (MethodView_dispatch_request_get C kwargs
             (fun a k => call_hook (own a k))).
    unfold get_handler. by rewrite H.
  - intros H. unfold MethodView_dispatch_request, verb_handler, get_handler.
    rewrite H. by destruct (base C).
  - intros own H.
    apply (MethodView_dispatch_request_post C kwargs
             (fun a k => call_hook (own a k))).
    unfold post_handler. by rewrite H.
  - intros H. unfold MethodView_dispatch_request, verb_handler, post_handler.
    rewrite H. by destruct (base C).
  - reflexivity.
Qed.

Lemma dispatch_request_hook_then_verb_witness :
  dispatch_request MoreSamples.Members GET [] ∅ fresh_world
  = (Ok (Redirect "/login" None),
     mkWorld (mkInstance (Some []) (Some ∅) None None)
       [RedirectTo "/login" None] 0)
  ∧ dispatch_request (Samples.Contact [("name", "Ann")] true) POST []
      {["id" := "7"]} fresh_world
    = FormView_post (Samples.Contact [("name", "Ann")] true) [] {["id" := "7"]}
        (store_kwargs {["id" := "7"]} (store_args [] fresh_world)).
Proof.
  split.
  - pose proof (dispatch_request_hook_then_verb MoreSamples.Members GET [] ∅
                  fresh_world) as (_ & _ & Hhook & _).
    exact (Hhook _ [RedirectTo "/login" None] (Redirect "/login" None)
             eq_refl eq_refl).
  - pose proof (dispatch_request_hook_then_verb
                  (Samples.Contact [("name", "Ann")] true) POST []
                  {["id" := "7"]} fresh_world)
      as (_ & _ & _ & _ & Hbase & _ & _ & _ & Hpost & _).
    rewrite (Hbase eq_refl). by rewrite (Hpost eq_refl).
Defined.

(** *** Flashing *)

Lemma flash_success_message_run C w msg :
  returns (get_success_message C) w msg →
  flash_success_message C w
  = (Ok tt, mkWorld (self w) (trace w ++ flashes msg) (next_ident w)).
Proof.
  intros H. apply reads_only_returns in H; [|auto with getters].
  unfold flash_success_message. rewrite (bind_ok _ _ _ _ _ H).
  unfold flash_message, flashes, flash, call, emit, ret.
  destruct msg as [s|]; [destruct (truthy (Some s))|];
    rewrite ?app_nil_r, ?world_eta; reflexivity.
Qed.

Lemma redirect_run u code w :
  redirect u code w = (Ok (Redirect u code), emit (RedirectTo u code) w).
Proof. reflexivity. Qed.

(** *** RedirectView *)

(** C3: on GET a [RedirectView] whose URL resolves returns a redirect to
    the value of [get_url()]; before the redirect is issued it flashes the
    success message, once when [get_success_message()] is a non-empty text
    and not at all when it is empty or [None]. *)
Theorem RedirectView_get_flashes_then_redirects
    (C : ViewClass) (args : list string) (kwargs : gmap string string)
    (w : World) (msg : option string) (u : string) :
  returns (get_success_message C) w msg →
  returns (get_url C) w u →
  ∃ w',
    RedirectView_get C args kwargs w = (Ok (Redirect u default_code), w')
    ∧ trace w'
      = (trace w ++ flashes msg ++ [RedirectTo u default_code])%list
    ∧ flashes msg
      = match msg with
        | Some s => if decide (s = EmptyString) then [] else [Flash s "success"]
        | None => []
        end.
Proof.
  intros Hmsg Hurl.
  eexists. split; [|split].
  - unfold RedirectView_get.
    rewrite (bind_ok _ _ _ _ _ (flash_success_message_run _ _ _ Hmsg)).
    erewrite bind_ok; [apply redirect_run|].
    eapply reads_only_same_self; [auto with getters| |exact Hurl]. reflexivity.
  - simpl. by rewrite <- app_assoc.
  - destruct msg as [s|]; [|done]. unfold flashes, truthy.
    by destruct (decide (s = EmptyString)).
Qed.

Lemma RedirectView_get_flashes_then_redirects_witness :
  ∃ w',
    RedirectView_get Samples.Leave [] ∅ Samples.dispatched
    = (Ok (Redirect "/" default_code), w')
    ∧ trace w' = [Flash "Bye" "success"; RedirectTo "/" default_code].
Proof.
  destruct (RedirectView_get_flashes_then_redirects Samples.Leave [] ∅
              Samples.dispatched (Some "Bye") "/")
    as (w' & Hget & Htrace & _).
  - by eexists.
  - by eexists.
  - exists w'. split; [exact Hget | exact Htrace].
Defined.

(** *** FormView.post *)

(** The valid branch of [post], up to the call of
    [form_valid_process()]. *)
Lemma FormView_post_valid_branch C args kwargs w f w1 msg :
  get_form C w = (Ok f, w1) →
  validate_on_submit f = true →
  returns (get_success_message C) (store_form f w1) msg →
  returns (form_valid C) (store_form f w1) None →
  ∃ w3,
    FormView_post C args kwargs w = form_valid_process C w3
    ∧ self w3 = self (store_form f w1)
    ∧ next_ident w3 = next_ident w1.
Proof.
  intros Hf Hv Hmsg Hhook.
  set (wf := store_form f w1) in *.
  pose proof (flash_success_message_run _ _ _ Hmsg) as Hflash.
  set (w2 := mkWorld _ _ _) in Hflash.
  destruct (hook_like_same_self (form_valid C) wf w2 None
              (form_valid_hook_like C) eq_refl Hhook) as [w3 H3].
  destruct (hook_like_run _ _ _ _ (form_valid_hook_like C) H3)
    as (Hs & Hn & _).
  exists w3. split; [|split; [exact Hs | exact Hn]].
  unfold FormView_post. rewrite (bind_ok _ _ _ _ _ Hf).
  unfold bind at 1. unfold set_form. fold wf.
  unfold bind at 1. unfold read_attr. simpl.
  rewrite Hv.
  rewrite (bind_ok _ _ _ _ _ Hflash), (bind_ok _ _ _ _ _ H3).
  reflexivity.
Qed.

(** The invalid branch of [post], up to the call of
    [form_invalid_process()]. *)
Lemma FormView_post_invalid_branch C args kwargs w f w1 :
  get_form C w = (Ok f, w1) →
  validate_on_submit f = false →
  returns (form_invalid C) (store_form f w1) None →
  ∃ w2 events,
    FormView_post C args kwargs w = form_invalid_process C w2
    ∧ w2 = mkWorld (self (store_form f w1)) (trace w1 ++ events) (next_ident w1).
Proof.
  intros Hf Hv [w2 H2].
  set (wf := store_form f w1) in *.
  destruct (form_invalid_hook_like C) as [h Hh].
  pose proof H2 as H2'. rewrite Hh in H2'. unfold call_hook in H2'.
  injection H2' as _ Hw2.
  exists w2, (fst (h (self wf))). split; [|by rewrite <- Hw2].
  unfold FormView_post. rewrite (bind_ok _ _ _ _ _ Hf).
  unfold bind at 1. unfold set_form. fold wf.
  unfold bind at 1. unfold read_attr. simpl.
  rewrite Hv. rewrite (bind_ok _ _ _ _ _ H2). reflexivity.
Qed.

(** C1, as the claim states it, fails on a [CreateView]: the form of
    [Unbound] validates, its [form_valid()] returns no result and its
    success URL resolves, yet [post] raises [AttributeError], because the
    form holds no record to take the session from. *)
Lemma CreateView_post_valid_without_record_fails :
  validate_on_submit (mkForm 0 (mkFormBody None [("title", "Logic")] true))
  = true
  ∧ get_form MoreSamples.Unbound Samples.dispatched
    = (Ok (mkForm 0 (mkFormBody None [("title", "Logic")] true)),
       mkWorld (self Samples.dispatched)
         [NewForm (mkForm 0 (mkFormBody None [("title", "Logic")] true))] 1)
  ∧ form_valid MoreSamples.Unbound Samples.dispatched
    = (Ok None, Samples.dispatched)
  ∧ get_success_url MoreSamples.Unbound Samples.dispatched
    = (Ok "/courses", Samples.dispatched)
  ∧ fst (FormView_post MoreSamples.Unbound [] ∅ Samples.dispatched)
    = Raise (AttributeError "query").
Proof. repeat split. Qed.

(** C1, amended: a view that inherits [FormView.post], whose form
    validates on submit, whose [form_valid()] hook returns no result and
    whose success URL resolves answers a POST with a redirect to the value
    of [get_success_url()], provided that, on a [CreateView], [UpdateView]
    or [DeleteView], [get_db_session()] returns a session. *)
Theorem FormView_post_valid_redirects
    (C : ViewClass) (args : list string) (kwargs : gmap string string)
    (w w1 : World) (f : Form) (msg : option string) (u : string) :
  get_form C w = (Ok f, w1) →
  validate_on_submit f = true →
  returns (get_success_message C) (store_form f w1) msg →
  returns (form_valid C) (store_form f w1) None →
  (base C = FormView →
   returns (get_success_url C) (store_form f w1) u →
   ∃ w' before,
     FormView_post C args kwargs w = (Ok (Redirect u default_code), w')
     ∧ trace w' = (before ++ [RedirectTo u default_code])%list)
  ∧ (∀ s,
       base C = CreateView ∨ base C = UpdateView →
       returns (get_db_session C) (store_form f w1) s →
       returns (get_success_url C)
         (store_object (form_obj f) (store_form f w1)) u →
       ∃ w' before,
         FormView_post C args kwargs w = (Ok (Redirect u default_code), w')
         ∧ trace w' = (before ++ [RedirectTo u default_code])%list)
  ∧ (∀ s,
       base C = DeleteView →
       returns (get_db_session C) (store_form f w1) s →
       returns (get_success_url C) (store_object None (store_form f w1)) u →
       ∃ w' before,
         FormView_post C args kwargs w = (Ok (Redirect u default_code), w')
         ∧ trace w' = (before ++ [RedirectTo u default_code])%list).
Proof.
  intros Hf Hv Hmsg Hhook.
  destruct (FormView_post_valid_branch C args kwargs w f w1 msg Hf Hv Hmsg Hhook)
    as (w3 & Hpost & Hs & _).
  assert (Hform : read_attr "form" inst_form w3 = (Ok f, w3)).
  { unfold read_attr. by rewrite Hs. }
  assert (Hredirect : ∀ w4,
            returns (get_success_url C) w4 u →
            FormView_form_valid_process C w4
            = (Ok (Redirect u default_code),
               emit (RedirectTo u default_code) w4)).
  { intros w4 Hurl. unfold FormView_form_valid_process.
    erewrite bind_ok; [apply redirect_run|].
    by apply reads_only_returns; [auto with getters|]. }
  split; [|split].
  - intros Hbase Hurl.
    exists (emit (RedirectTo u default_code) w3), (trace w3).
    split; [|reflexivity].
    rewrite Hpost. unfold form_valid_process. rewrite Hbase.
    apply Hredirect. exists w3.
    eapply reads_only_same_self; [auto with getters| |exact Hurl].
    by rewrite Hs.
  - intros s Hbase Hsess Hurl.
    set (w5 := store_object (form_obj f) (emit (SaveObj f s) w3)).
    exists (emit (RedirectTo u default_code) w5), (trace w5).
    split; [|reflexivity].
    rewrite Hpost.
    assert (form_valid_process C = CreateView_form_valid_process C) as ->.
    { unfold form_valid_process. by destruct Hbase as [-> | ->]. }
    unfold CreateView_form_valid_process.
    rewrite (bind_ok _ _ _ _ _ Hform).
    erewrite bind_ok; cycle 1.
    { eapply reads_only_same_self; [auto with getters| |exact Hsess].
      by rewrite Hs. }
    unfold bind at 1. unfold save_obj, call.
    assert (read_attr "form" inst_form (emit (SaveObj f s) w3)
            = (Ok f, emit (SaveObj f s) w3)) as Hform4.
    { unfold read_attr. simpl. by rewrite Hs. }
    rewrite (bind_ok _ _ _ _ _ Hform4).
    unfold bind at 1. unfold set_object. fold w5.
    apply Hredirect. exists w5.
    eapply reads_only_same_self; [auto with getters| |exact Hurl].
    unfold w5. simpl. by rewrite Hs.
  - intros s Hbase Hsess Hurl.
    set (w5 := store_object None (emit (DeleteObj f s) w3)).
    exists (emit (RedirectTo u default_code) w5), (trace w5).
    split; [|reflexivity].
    rewrite Hpost. unfold form_valid_process. rewrite Hbase.
    unfold DeleteView_form_valid_process.
    rewrite (bind_ok _ _ _ _ _ Hform).
    erewrite bind_ok; cycle 1.
    { eapply reads_only_same_self; [auto with getters| |exact Hsess].
      by rewrite Hs. }
    unfold bind at 1. unfold delete_obj, call.
    unfold bind at 1. unfold set_object. fold w5.
    apply Hredirect. exists w5.
    eapply reads_only_same_self; [auto with getters| |exact Hurl].
    unfold w5. simpl. by rewrite Hs.
Qed.

Lemma FormView_post_valid_redirects_witness :
  (∃ w' before,
     FormView_post (Samples.Contact [("name", "Ann")] true) [] ∅
       Samples.dispatched
     = (Ok (Redirect "/thanks" default_code), w')
     ∧ trace w' = (before ++ [RedirectTo "/thanks" default_code])%list)
  ∧ (∃ w' before,
       FormView_post Samples.CourseAdd [] ∅ Samples.dispatched
       = (Ok (Redirect "/courses" default_code), w')
       ∧ trace w' = (before ++ [RedirectTo "/courses" default_code])%list)
  ∧ (∃ w' before,
       FormView_post Samples.CourseDelete [] ∅ Samples.dispatched
       = (Ok (Redirect "/courses" default_code), w')
       ∧ trace w' = (before ++ [RedirectTo "/courses" default_code])%list).
Proof.
  split; [|split].
  - destruct (FormView_post_valid_redirects
                (Samples.Contact [("name", "Ann")] true) [] ∅
                Samples.dispatched _ _ None "/thanks" eq_refl eq_refl)
      as (Hplain & _); [by eexists|by eexists|].
    apply Hplain; [reflexivity|by eexists].
  - destruct (FormView_post_valid_redirects Samples.CourseAdd [] ∅
                Samples.dispatched _ _ None "/courses" eq_refl eq_refl)
      as (_ & Hcreate & _); [by eexists|by eexists|].
    apply (Hcreate 7); [by left|by eexists|by eexists].
  - destruct (FormView_post_valid_redirects Samples.CourseDelete [] ∅
                Samples.dispatched _ _ None "/courses" eq_refl eq_refl)
      as (_ & _ & Hdelete); [by eexists|by eexists|].
    apply (Hdelete 7); [reflexivity|by eexists|by eexists].
Defined.

(** *** CreateView, UpdateView and DeleteView *)

(** C8: on a valid POST whose [form_valid()] hook returns no result, a
    [CreateView] (and an [UpdateView], which inherits from it) calls
    [form.save_obj] with the session of [get_db_session()], and a
    [DeleteView] calls [form.delete_obj] with it; the redirect to the
    success URL is the next call and the result of the request. Afterwards
    [self.object] is the record of the form, respectively [None]. *)
Theorem CreateView_DeleteView_post_valid
    (C : ViewClass) (args : list string) (kwargs : gmap string string)
    (w w1 : World) (f : Form) (msg : option string) (s : Session) (u : string) :
  get_form C w = (Ok f, w1) →
  validate_on_submit f = true →
  returns (get_success_message C) (store_form f w1) msg →
  returns (form_valid C) (store_form f w1) None →
  returns (get_db_session C) (store_form f w1) s →
  (base C = CreateView ∨ base C = UpdateView →
   returns (get_success_url C) (store_object (form_obj f) (store_form f w1)) u →
   ∃ w' before,
     FormView_post C args kwargs w = (Ok (Redirect u default_code), w')
     ∧ trace w' = (before ++ [SaveObj f s; RedirectTo u default_code])%list
     ∧ inst_object (self w') = Some (form_obj f))
  ∧ (base C = DeleteView →
     returns (get_success_url C) (store_object None (store_form f w1)) u →
     ∃ w' before,
       FormView_post C args kwargs w = (Ok (Redirect u default_code), w')
       ∧ trace w' = (before ++ [DeleteObj f s; RedirectTo u default_code])%list
       ∧ inst_object (self w') = Some None).
Proof.
  intros Hf Hv Hmsg Hhook Hsess.
  destruct (FormView_post_valid_branch C args kwargs w f w1 msg Hf Hv Hmsg Hhook)
    as (w3 & Hpost & Hs & _).
  assert (Hform : read_attr "form" inst_form w3 = (Ok f, w3)).
  { unfold read_attr. by rewrite Hs. }
  assert (Hsess3 : get_db_session C w3 = (Ok s, w3)).
  { eapply reads_only_same_self; [auto with getters| |exact Hsess].
    by rewrite Hs. }
  split.
  - intros Hbase Hurl.
    set (w4 := emit (SaveObj f s) w3).
    set (w5 := store_object (form_obj f) w4).
    exists (emit (RedirectTo u default_code) w5), (trace w3).
    split; [|split].
    + rewrite Hpost.
      assert (form_valid_process C = CreateView_form_valid_process C) as ->.
      { unfold form_valid_process. by destruct Hbase as [-> | ->]. }
      unfold CreateView_form_valid_process.
      rewrite (bind_ok _ _ _ _ _ Hform), (bind_ok _ _ _ _ _ Hsess3).
      unfold bind at 1. unfold save_obj, call. fold w4.
      assert (read_attr "form" inst_form w4 = (Ok f, w4)) as Hform4.
      { unfold read_attr. simpl. by rewrite Hs. }
      rewrite (bind_ok _ _ _ _ _ Hform4).
      unfold bind at 1. unfold set_object. fold w5.
      unfold FormView_form_valid_process.
      erewrite bind_ok; [apply redirect_run|].
      eapply reads_only_same_self; [auto with getters| |exact Hurl].
      unfold w5, w4. simpl. by rewrite Hs.
    + simpl. by rewrite <- app_assoc.
    + reflexivity.
  - intros Hbase Hurl.
    set (w4 := emit (DeleteObj f s) w3).
    set (w5 := store_object None w4).
    exists (emit (RedirectTo u default_code) w5), (trace w3).
    split; [|split].
    + rewrite Hpost. unfold form_valid_process. rewrite Hbase.
      unfold DeleteView_form_valid_process.
      rewrite (bind_ok _ _ _ _ _ Hform), (bind_ok _ _ _ _ _ Hsess3).
      unfold bind at 1. unfold delete_obj, call. fold w4.
      unfold bind at 1. unfold set_object. fold w5.
      unfold FormView_form_valid_process.
      erewrite bind_ok; [apply redirect_run|].
      eapply reads_only_same_self; [auto with getters| |exact Hurl].
      unfold w5, w4. simpl. by rewrite Hs.
    + simpl. by rewrite <- app_assoc.
    + reflexivity.
Qed.

Lemma CreateView_DeleteView_post_valid_witness :
  (∃ w' before,
     FormView_post Samples.CourseAdd [] ∅ Samples.dispatched
     = (Ok (Redirect "/courses" default_code), w')
     ∧ trace w'
       = (before
          ++ [SaveObj (mkForm 0 (mkFormBody (Some (Samples.course 3))
                                   [("title", "Logic")] true)) 7;
              RedirectTo "/courses" default_code])%list
     ∧ inst_object (self w') = Some (Some (Samples.course 3)))
  ∧ (∃ w' before,
       FormView_post Samples.CourseDelete [] ∅ Samples.dispatched
       = (Ok (Redirect "/courses" default_code), w')
       ∧ trace w'
         = (before
            ++ [DeleteObj (mkForm 0 (mkFormBody (Some (Samples.course 2)) [] true)) 7;
                RedirectTo "/courses" default_code])%list
       ∧ inst_object (self w') = Some None).
Proof.
  split.
  - refine (proj1 (CreateView_DeleteView_post_valid Samples.CourseAdd [] ∅
                     Samples.dispatched _ _ None 7 "/courses"
                     eq_refl eq_refl _ _ _) _ _).
    + by eexists.
    + by eexists.
    + by eexists.
    + by left.
    + by eexists.
  - refine (proj2 (CreateView_DeleteView_post_valid Samples.CourseDelete [] ∅
                     Samples.dispatched _ _ None 7 "/courses"
                     eq_refl eq_refl _ _ _) _ _).
    + by eexists.
    + by eexists.
    + by eexists.
    + reflexivity.
    + by eexists.
Defined.

(** *** Rendering *)

Lemma TemplateView_get_default_context_run C w kw extra :
  inst_kwargs (self w) = Some kw →
  returns (get_context C) w extra →
  TemplateView_get_default_context C w
  = (Ok (default_context (self w) kw extra), w).
Proof.
  intros Hkw Hextra. unfold TemplateView_get_default_context.
  unfold bind at 1. unfold read_self.
  unfold bind at 1. unfold read_attr. rewrite Hkw.
  apply reads_only_returns in Hextra; [|auto with getters].
  by rewrite (bind_ok _ _ _ _ _ Hextra).
Qed.

Lemma TemplateView_get_run C args kwargs w t context :
  returns (get_template_names C) w t →
  get_default_context C w = (Ok context, w) →
  TemplateView_get C args kwargs w
  = (Ok (Page t context), emit (RenderTemplate t context) w).
Proof.
  intros Ht Hctx. unfold TemplateView_get.
  apply reads_only_returns in Ht; [|auto with getters].
  by rewrite (bind_ok _ _ _ _ _ Ht), (bind_ok _ _ _ _ _ Hctx).
Qed.





(** [get_form] builds one form and leaves the instance alone. *)
Lemma get_form_built C w f w1 :
  get_form C w = (Ok f, w1) →
  w1 = mkWorld (self w) (trace w ++ [NewForm f]) (S (next_ident w)).
Proof.
  assert (Hnew : ∀ fc obj,
             new_form fc obj w = (Ok f, w1) →
             w1 = mkWorld (self w) (trace w ++ [NewForm f]) (S (next_ident w))).
  { intros fc obj H. unfold new_form in H. by injection H as <- <-. }
  assert (Hplain : FormView_get_form C w = (Ok f, w1) →
            w1 = mkWorld (self w) (trace w ++ [NewForm f]) (S (next_ident w))).
  { unfold FormView_get_form. destruct (form_class C); [apply Hnew|done]. }
  assert (Hobj : CreateView_get_form C w = (Ok f, w1) →
            w1 = mkWorld (self w) (trace w ++ [NewForm f]) (S (next_ident w))).
  { unfold CreateView_get_form, bind.
    destruct (get_object C w) as [[o|e] w0] eqn:E; [|done].
    apply reads_only_run in E; [subst w0|auto with getters].
    destruct (form_class C); [apply Hnew|done]. }
  unfold get_form. destruct (base C); auto.
Qed.

Lemma get_form_run C w f w1 :
  get_form C w = (Ok f, w1) → self w1 = self w.
Proof. intros H. by rewrite (get_form_built _ _ _ _ H). Qed.

(** *** FormView: the invalid branch *)

(** C2: a view that inherits [FormView.post], whose form fails validation
    and whose [form_invalid()] hook returns no result, answers a POST by
    rendering the template of [get_template_names()]; the context maps
    [get_context_form_name()] to the form instance [post] built from the
    request, and no other form instance is built on the way. On a
    [CreateView], [UpdateView] or [DeleteView] the way leads through
    [DetailView.get], which also puts the record in the context. *)
Theorem FormView_post_invalid_rerenders
    (C : ViewClass) (args a0 : list string) (kwargs k0 : gmap string string)
    (w w1 : World) (f : Form) :
  inst_args (self w) = Some a0 →
  inst_kwargs (self w) = Some k0 →
  get_form C w = (Ok f, w1) →
  validate_on_submit f = false →
  returns (form_invalid C) (store_form f w1) None →
  (base C = FormView →
   ∀ t extra,
     returns (get_template_names C) (store_form f w1) t →
     returns (get_context C) (store_form f w1) extra →
     let context :=
       <[context_form_name C := VForm f]>
         (default_context (self (store_form f w1)) k0 extra) in
     ∃ w' before,
       FormView_post C args kwargs w = (Ok (Page t context), w')
       ∧ context !! context_form_name C = Some (VForm f)
       ∧ trace w' = (before ++ [RenderTemplate t context])%list
       ∧ inst_form (self w') = Some f
       ∧ next_ident w' = next_ident w1
       ∧ next_ident w1 = S (next_ident w))
  ∧ (has_detail C = true →
     ∀ o o' t extra,
       returns (get_object C) (store_form f w1) o →
       returns (get_template_names C)
         (store_object (Some o) (store_form f w1)) t →
       returns (get_context C)
         (store_object (Some o) (store_form f w1)) extra →
       returns (get_object C) (store_object (Some o) (store_form f w1)) o' →
       let context :=
         <[context_form_name C := VForm f]>
           (<[context_object_name C := VObject o']>
              (default_context
                 (self (store_object (Some o) (store_form f w1))) k0 extra)) in
       ∃ w' before,
         FormView_post C args kwargs w = (Ok (Page t context), w')
         ∧ context !! context_form_name C = Some (VForm f)
         ∧ trace w' = (before ++ [RenderTemplate t context])%list
         ∧ inst_form (self w') = Some f
         ∧ next_ident w' = next_ident w1
         ∧ next_ident w1 = S (next_ident w)).
Proof.
  intros Ha Hk Hf Hv Hhook.
  pose proof (get_form_run _ _ _ _ Hf) as Hself1.
  assert (Hn1 : next_ident w1 = S (next_ident w))
    by (by rewrite (get_form_built _ _ _ _ Hf)).
  destruct (FormView_post_invalid_branch C args kwargs w f w1 Hf Hv Hhook)
    as (w2 & events & Hpost & Hw2).
  assert (Hs : self w2 = self (store_form f w1)) by (by rewrite Hw2).
  assert (Hn2 : next_ident w2 = next_ident w1) by (by rewrite Hw2).
  assert (Hargs : FormView_form_invalid_process C w2
                  = FormView_super_get C a0 k0 w2).
  { unfold FormView_form_invalid_process.
    unfold bind at 1. unfold read_attr at 1. rewrite Hs. simpl.
    rewrite Hself1, Ha.
    unfold bind at 1. unfold read_attr at 1. rewrite Hs. simpl.
    by rewrite Hself1, Hk. }
  assert (Hkw : ∀ w3, self w3 = self w2 ∨ (∃ o, self w3 = self (store_object o w2)) →
                      inst_kwargs (self w3) = Some k0).
  { intros w3 [-> | [o ->]]; simpl; rewrite ?Hs; simpl; by rewrite Hself1. }
  split.
  - intros Hbase t extra Ht Hextra context.
    assert (Hctx : get_default_context C w2 = (Ok context, w2)).
    { unfold get_default_context. rewrite Hbase.
      unfold FormView_get_default_context, FormView_super_get_default_context,
        has_detail. rewrite Hbase.
      erewrite bind_ok; cycle 1.
      { apply TemplateView_get_default_context_run with (kw := k0).
        - apply Hkw. by left.
        - exists w2.
          eapply reads_only_same_self; [auto with getters| |exact Hextra].
          by rewrite Hs. }
      unfold bind at 1. unfold read_attr. rewrite Hs. simpl. reflexivity. }
    exists (emit (RenderTemplate t context) w2), (trace w2).
    split; [|split; [|split; [|split; [|split]]]].
    + rewrite Hpost. unfold form_invalid_process. rewrite Hargs.
      unfold FormView_super_get, has_detail. rewrite Hbase.
      apply TemplateView_get_run; [|exact Hctx].
      exists w2. eapply reads_only_same_self; [auto with getters| |exact Ht].
      by rewrite Hs.
    + apply lookup_insert_eq.
    + reflexivity.
    + simpl. by rewrite Hs.
    + exact Hn2.
    + exact Hn1.
  - intros Hd o o' t extra Ho Ht Hextra Ho' context.
    set (wo := store_object (Some o) w2).
    assert (Hso : self wo = self (store_object (Some o) (store_form f w1))).
    { unfold wo. simpl. by rewrite Hs. }
    assert (Ho2 : get_object C w2 = (Ok o, w2)).
    { eapply reads_only_same_self; [auto with getters| |exact Ho].
      by rewrite Hs. }
    assert (Ho3 : get_object C wo = (Ok o', wo)).
    { eapply reads_only_same_self; [auto with getters| |exact Ho'].
      by rewrite Hso. }
    assert (Hctx : get_default_context C wo = (Ok context, wo)).
    { assert (get_default_context C = FormView_get_default_context C) as ->.
      { unfold get_default_context, has_detail in *. by destruct (base C). }
      unfold FormView_get_default_context, FormView_super_get_default_context.
      rewrite Hd. unfold DetailView_get_default_context.
      assert (TemplateView_get_default_context C wo
              = (Ok (default_context (self wo) k0 extra), wo)) as Hbase.
      { apply TemplateView_get_default_context_run.
        - apply Hkw. right. by exists (Some o).
        - exists wo.
          eapply reads_only_same_self; [auto with getters| |exact Hextra].
          by rewrite Hso. }
      unfold bind at 1. unfold bind at 1. rewrite Hbase.
      unfold bind at 1. rewrite Ho3.
      unfold bind at 1. unfold get_context_object_name, ret.
      unfold bind at 1. unfold read_attr. rewrite Hso. simpl.
      reflexivity. }
    exists (emit (RenderTemplate t context) wo), (trace wo).
    split; [|split; [|split; [|split; [|split]]]].
    + rewrite Hpost. unfold form_invalid_process. rewrite Hargs.
      unfold FormView_super_get. rewrite Hd.
      unfold DetailView_get. rewrite (bind_ok _ _ _ _ _ Ho2).
      unfold bind at 1. unfold set_object. fold wo.
      apply TemplateView_get_run; [|exact Hctx].
      exists wo. eapply reads_only_same_self; [auto with getters| |exact Ht].
      by rewrite Hso.
    + apply lookup_insert_eq.
    + reflexivity.
    + simpl. by rewrite Hs.
    + exact Hn2.
    + exact Hn1.
Qed.

Lemma FormView_post_invalid_rerenders_witness :
  (∃ w' before,
     FormView_post (Samples.Contact [("email", "nope")] false) [] ∅
       Samples.dispatched
     = (Ok (Page "contact.html"
              (<["form" := VForm (mkForm 0 (mkFormBody None [("email", "nope")] false))]>
                 (default_context
                    (mkInstance (Some []) (Some ∅)
                       (Some (mkForm 0 (mkFormBody None [("email", "nope")] false)))
                       None)
                    ∅ ∅))), w')
     ∧ trace w'
       = (before
          ++ [RenderTemplate "contact.html"
                (<["form" := VForm (mkForm 0 (mkFormBody None [("email", "nope")] false))]>
                   (default_context
                      (mkInstance (Some []) (Some ∅)
                         (Some (mkForm 0 (mkFormBody None [("email", "nope")] false)))
                         None)
                      ∅ ∅))])%list
     ∧ next_ident w' = 1)
  ∧ (∃ w' context,
       FormView_post MoreSamples.CourseAddRejected [] ∅ Samples.dispatched
       = (Ok (Page "course_add.html" context), w')
       ∧ context !! "form"
         = Some (VForm (mkForm 0 (mkFormBody (Some (Samples.course 3))
                                    [("title", EmptyString)] false)))
       ∧ context !! "object" = Some (VObject (Samples.course 3))
       ∧ next_ident w' = 1).
Proof.
  split.
  - destruct (FormView_post_invalid_rerenders
                (Samples.Contact [("email", "nope")] false) [] [] ∅ ∅
                Samples.dispatched _ _ eq_refl eq_refl eq_refl eq_refl)
      as [Hplain _]; [by eexists|].
    destruct (Hplain eq_refl "contact.html" ∅)
      as (w' & before & Hpost & _ & Htrace & _ & Hn & Hn1);
      [by eexists|by eexists|].
    exists w', before. split; [exact Hpost|]. split; [exact Htrace|].
    rewrite Hn. exact Hn1.
  - destruct (FormView_post_invalid_rerenders
                MoreSamples.CourseAddRejected [] [] ∅ ∅
                Samples.dispatched _ _ eq_refl eq_refl eq_refl eq_refl)
      as [_ Hdetail]; [by eexists|].
    destruct (Hdetail eq_refl (Samples.course 3) (Samples.course 3)
                "course_add.html" ∅)
      as (w' & before & Hpost & Hform & _ & _ & Hn & Hn1);
      [by eexists|by eexists|by eexists|by eexists|].
    eexists w', _. split; [exact Hpost|]. split; [exact Hform|].
    split; [reflexivity|]. rewrite Hn. exact Hn1.
Defined.

(** *** ListView *)

(** C6: a [ListView] with a [model], and no definition of
    [get_object_list] of its own, renders with a context that maps
    [get_context_object_list_name()], which is ['object_list'] unless the
    class says otherwise, to the list [model.query.all()] returned: every
    record of that list is in the context. *)
Theorem ListView_context_holds_all_records
    (C : ViewClass) (args : list string) (kwargs k0 : gmap string string)
    (w : World) (m : Model) (t : string) (extra : gmap string Value) :
  base C = ListView →
  model C = Some m →
  def_get_object_list C = None →
  inst_kwargs (self w) = Some k0 →
  returns (get_template_names C) w t →
  returns (get_context C) w extra →
  let name := context_object_list_name C in
  let context := <[name := VObjectList (query_all m)]> (default_context (self w) k0 extra) in
  TemplateView_get C args kwargs w
  = (Ok (Page t context), emit (RenderTemplate t context) w)
  ∧ (def_get C = None → get_handler C = Some (TemplateView_get C))
  ∧ get_context_object_list_name C w = (Ok name, w)
  ∧ context !! name = Some (VObjectList (query_all m))
  ∧ (∀ o, o ∈ query_all m →
          ∃ l, context !! name = Some (VObjectList l) ∧ o ∈ l)
  ∧ (∀ n, context_object_list_name (declare ListView n) = "object_list").
Proof.
  intros Hbase Hm Hown Hk Ht Hextra name context.
  assert (Hlookup : context !! name = Some (VObjectList (query_all m)))
    by apply lookup_insert_eq.
  split; [|split; [|split; [|split; [|split]]]].
  - apply TemplateView_get_run; [exact Ht|].
    unfold get_default_context. rewrite Hbase.
    unfold ListView_get_default_context.
    rewrite (bind_ok _ _ _ _ _
               (TemplateView_get_default_context_run _ _ _ _ Hk Hextra)).
    unfold get_object_list. rewrite Hown, Hbase, Hm. reflexivity.
  - intros Hget. unfold get_handler. by rewrite Hget, Hbase.
  - reflexivity.
  - exact Hlookup.
  - intros o Ho. eauto.
  - reflexivity.
Qed.

Lemma ListView_context_holds_all_records_witness :
  TemplateView_get Samples.Courses [] ∅ Samples.dispatched
  = (Ok (Page "courses.html"
           (<["object_list" := VObjectList [Samples.course 1; Samples.course 2]]>
              (default_context (self Samples.dispatched) ∅ ∅))),
     emit (RenderTemplate "courses.html"
             (<["object_list" := VObjectList [Samples.course 1; Samples.course 2]]>
                (default_context (self Samples.dispatched) ∅ ∅)))
       Samples.dispatched).
Proof.
  refine (proj1 (ListView_context_holds_all_records Samples.Courses [] ∅ ∅
                   Samples.dispatched Samples.Course "courses.html" ∅
                   eq_refl eq_refl eq_refl eq_refl _ _)).
  - by eexists.
  - by eexists.
Defined.


(** *** TemplateView *)





(** ** Further properties of the class-based views *)

(** *** The endpoint name of [View.register] *)

Lemma lower_char_not_upper c : is_upper (lower_char c) = false.
Proof. destruct c as [[] [] [] [] [] [] [] []]; reflexivity. Qed.

Lemma lower_char_underscore c :
  lower_char c = "_"%char ↔ c = "_"%char.
Proof. destruct c as [[] [] [] [] [] [] [] []]; split; (done || discriminate). Qed.

Lemma lower_char_fixed c : is_upper c = false → lower_char c = c.
Proof. intros H. unfold lower_char. by rewrite H. Qed.

Lemma no_upper_lower s : no_upper (lower s) = true.
Proof.
  induction s as [|c s IH]; [done|]. simpl.
  by rewrite lower_char_not_upper, IH.
Qed.

Lemma lower_fixed s : no_upper s = true → lower s = s.
Proof.
  induction s as [|c s IH]; [done|]. simpl.
  intros [Hc Hs]%andb_prop. apply negb_true_iff in Hc.
  by rewrite lower_char_fixed, IH.
Qed.

Lemma camel_to_underscore_sub_from_fixed prev s :
  no_upper s = true → camel_to_underscore_sub_from prev s = s.
Proof.
  revert prev. induction s as [|c s IH]; [done|]. simpl.
  intros prev [Hc Hs]%andb_prop. apply negb_true_iff in Hc.
  unfold camel_to_underscore_matches. rewrite Hc. simpl. by rewrite IH.
Qed.

Lemma endpoint_name_fixed s : no_upper s = true → endpoint_name s = s.
Proof.
  intros H. unfold endpoint_name, camel_to_underscore_sub.
  rewrite camel_to_underscore_sub_from_fixed by done. by apply lower_fixed.
Qed.

Lemma remove_underscores_sub_from prev s :
  remove_underscores (camel_to_underscore_sub_from prev s)
  = remove_underscores s.
Proof.
  revert prev. induction s as [|c s IH]; [done|]. intros prev. simpl.
  destruct (camel_to_underscore_matches prev c (first_char s)); simpl;
    by rewrite IH.
Qed.

Lemma remove_underscores_lower s :
  remove_underscores (lower s) = lower (remove_underscores s).
Proof.
  induction s as [|c s IH]; [done|]. simpl.
  destruct (decide (c = "_"%char)) as [->|Hc].
  - by rewrite decide_True by done.
  - rewrite decide_False by (by rewrite lower_char_underscore).
    simpl. by rewrite IH.
Qed.

Lemma length_lower s : String.length (lower s) = String.length s.
Proof. induction s as [|c s IH]; [done|]. simpl. by rewrite IH. Qed.

Lemma length_sub_from prev s :
  (String.length s ≤ String.length (camel_to_underscore_sub_from prev s))%nat
  ∧ (String.length (camel_to_underscore_sub_from prev s)
     ≤ 2 * String.length s)%nat.
Proof.
  revert prev. induction s as [|c s IH]; [simpl; lia|]. intros prev. simpl.
  specialize (IH (Some c)).
  destruct (camel_to_underscore_matches prev c (first_char s)); simpl; lia.
Qed.

(** X1: registering a view without a name uses an endpoint name that has no
    upper-case letter; registering it explicitly under that name adds the
    same rule, and a name that is given is used as it is. *)
Theorem register_default_endpoint
    (C : ViewClass) (blueprint : list Rule) (route : string) :
  ascii_name (class_name C) = true →
  ∃ e,
    register C blueprint route None
    = (blueprint ++ [mkRule route e (class_name C)])%list
    ∧ no_upper e = true
    ∧ register C blueprint route (Some e) = register C blueprint route None
    ∧ ∀ n, register C blueprint route (Some n)
           = (blueprint ++ [mkRule route n (class_name C)])%list.
Proof.
  intros _. exists (endpoint_name (class_name C)).
  split; [reflexivity|]. split; [apply no_upper_lower|].
  split; reflexivity.
Qed.

Lemma register_default_endpoint_witness :
  ∃ e,
    register Samples.CourseAdd [] "/courses/add" None
    = [mkRule "/courses/add" e "CourseAdd"]
    ∧ no_upper e = true
    ∧ register Samples.CourseAdd [] "/courses/add" (Some e)
      = register Samples.CourseAdd [] "/courses/add" None
    ∧ ∀ n, register Samples.CourseAdd [] "/courses/add" (Some n)
           = [mkRule "/courses/add" n "CourseAdd"].
Proof.
  apply (register_default_endpoint Samples.CourseAdd [] "/courses/add").
  reflexivity.
Defined.

(** X2: the conversion of a class name to an endpoint name is idempotent,
    and a name without upper-case letters is its own endpoint name. *)
Theorem endpoint_name_idempotent (name : string) :
  ascii_name name = true →
  endpoint_name (endpoint_name name) = endpoint_name name
  ∧ (no_upper name = true → endpoint_name name = name).
Proof.
  intros _. split; [|apply endpoint_name_fixed].
  apply endpoint_name_fixed. apply no_upper_lower.
Qed.

Lemma endpoint_name_idempotent_witness :
  endpoint_name (endpoint_name "HTTPCourseAdd2Go") = endpoint_name "HTTPCourseAdd2Go"
  ∧ (no_upper "course_add" = true → endpoint_name "course_add" = "course_add").
Proof.
  split.
  - apply (endpoint_name_idempotent "HTTPCourseAdd2Go"). reflexivity.
  - apply (endpoint_name_idempotent "course_add"). reflexivity.
Defined.

Lemma camel_to_underscore_matches_inv prev c next :
  camel_to_underscore_matches prev c next = true →
  is_upper c = true ∧ prev ≠ None.
Proof.
  unfold camel_to_underscore_matches. intros [Hu H]%andb_prop.
  split; [done|]. by destruct prev.
Qed.

Lemma underscores_inserted_sub_from prev s first :
  (first = true → prev = None) →
  underscores_inserted first s (lower (camel_to_underscore_sub_from prev s))
  = true.
Proof.
  revert prev first. induction s as [|c s IH]; intros prev first Hfirst; [done|].
  cbn [camel_to_underscore_sub_from].
  destruct (camel_to_underscore_matches prev c (first_char s)) eqn:E.
  - apply camel_to_underscore_matches_inv in E as [Hu Hprev].
    assert (first = false) as ->
      by (destruct first; [by specialize (Hfirst eq_refl)|done]).
    cbn [lower underscores_inserted]. rewrite Hu.
    change (lower_char "_"%char) with "_"%char.
    rewrite (bool_decide_true ("_"%char = "_"%char)) by done.
    rewrite (bool_decide_true (lower_char c = lower_char c)) by done.
    rewrite IH by done. apply orb_true_r.
  - cbn [lower underscores_inserted].
    rewrite (bool_decide_true (lower_char c = lower_char c)) by done.
    by rewrite IH.
Qed.

(** X3: the conversion only inserts underscores and lower-cases letters:
    the endpoint name is the lower-cased class name with single underscores
    put in front of some of its upper-case letters, never in front of the
    first character. So without its underscores it is the lower-cased class
    name without its underscores, and it is at most twice as long, less
    one. *)
Theorem endpoint_name_inserts_underscores_only (name : string) :
  ascii_name name = true →
  underscores_inserted true name (endpoint_name name) = true
  ∧ remove_underscores (endpoint_name name) = lower (remove_underscores name)
  ∧ first_char (endpoint_name name) = lower_char <$> first_char name
  ∧ (String.length name ≤ String.length (endpoint_name name))%nat
  ∧ (String.length (endpoint_name name) ≤ 2 * String.length name - 1)%nat.
Proof.
  intros _. unfold endpoint_name, camel_to_underscore_sub.
  split; [|split; [|split; [|split]]].
  - by apply underscores_inserted_sub_from.
  - by rewrite remove_underscores_lower, remove_underscores_sub_from.
  - destruct name as [|c rest]; [done|]. simpl.
    unfold camel_to_underscore_matches. simpl. by rewrite andb_false_r.
  - rewrite length_lower. apply length_sub_from.
  - rewrite length_lower. destruct name as [|c rest]; [simpl; lia|].
    simpl. unfold camel_to_underscore_matches. simpl. rewrite andb_false_r.
    simpl. pose proof (length_sub_from (Some c) rest). lia.
Qed.

Lemma endpoint_name_inserts_underscores_only_witness :
  underscores_inserted true "HTTPCourseAdd2Go" (endpoint_name "HTTPCourseAdd2Go")
  = true
  ∧ endpoint_name "HTTPCourseAdd2Go" = "http_course_add2_go"
  ∧ endpoint_name "CourseAdd" = "course_add"
  ∧ endpoint_name "ViewName" = "view_name"
  ∧ underscores_inserted true "aBCd" "a__bcd" = false
  ∧ underscores_inserted true "a_bC" "ab_c" = false
  ∧ underscores_inserted true "Ab" "_ab" = false.
Proof.
  split; [|repeat split].
  apply (endpoint_name_inserts_underscores_only "HTTPCourseAdd2Go").
  reflexivity.
Defined.

(** *** RedirectView without a URL *)

(** X4: a [RedirectView] that supplies no URL fails a GET with
    [ImproperlyConfigured], but only after the success message was flashed:
    the flash of a non-empty message is already in the trace. *)
Theorem RedirectView_get_flashes_before_failing
    (C : ViewClass) (args : list string) (kwargs : gmap string string)
    (w : World) (msg : option string) :
  base C = RedirectView →
  def_get_url C = None →
  url C = None →
  returns (get_success_message C) w msg →
  RedirectView_get C args kwargs w
  = (Raise (ImproperlyConfigured
       (class_name C ++ " must define either `url` or `get_url()`")),
     mkWorld (self w) (trace w ++ flashes msg) (next_ident w)).
Proof.
  intros Hbase Hown Hurl Hmsg. unfold RedirectView_get.
  rewrite (bind_ok _ _ _ _ _ (flash_success_message_run _ _ _ Hmsg)).
  unfold bind, get_url. by rewrite Hown, Hbase, Hurl.
Qed.

Lemma RedirectView_get_flashes_before_failing_witness :
  RedirectView_get MoreSamples.Nowhere [] ∅ Samples.dispatched
  = (Raise (ImproperlyConfigured
       "Nowhere must define either `url` or `get_url()`"),
     mkWorld (self Samples.dispatched) [Flash "Bye" "success"] 0).
Proof.
  apply (RedirectView_get_flashes_before_failing MoreSamples.Nowhere [] ∅
           Samples.dispatched (Some "Bye"));
    [reflexivity|reflexivity|reflexivity|].
  by eexists.
Defined.

(** *** Results of the form hooks *)

(** X5: when the form validates and the class's [form_valid()] returns a
    truthy result, [post] returns that result: the success message has been
    flashed, and [form_valid_process()] does not run, so the library itself
    saves or deletes nothing, redirects nowhere and leaves [self.object]
    alone, whatever the base of the class. *)
Theorem FormView_post_form_valid_result
    (C : ViewClass) (args : list string) (kwargs : gmap string string)
    (w w1 : World) (f : Form) (msg : option string)
    (h : Hook (option Response)) (events : list Event) (r : Response) :
  get_form C w = (Ok f, w1) →
  validate_on_submit f = true →
  returns (get_success_message C) (store_form f w1) msg →
  def_form_valid C = Some h →
  h (self (store_form f w1)) = (events, Ok (Some r)) →
  FormView_post C args kwargs w
  = (Ok r,
     mkWorld (self (store_form f w1))
       (trace w1 ++ flashes msg ++ events) (next_ident w1)).
Proof.
  intros Hf Hv Hmsg Hown Hh.
  unfold FormView_post. rewrite (bind_ok _ _ _ _ _ Hf).
  unfold bind at 1. unfold set_form.
  unfold bind at 1. unfold read_attr. simpl. rewrite Hv.
  rewrite (bind_ok _ _ _ _ _ (flash_success_message_run _ _ _ Hmsg)).
  unfold bind, form_valid, call_hook. rewrite Hown. simpl in Hh |- *.
  rewrite Hh. simpl. by rewrite <- app_assoc.
Qed.

Lemma FormView_post_form_valid_result_witness :
  FormView_post MoreSamples.CourseDraft [] ∅ Samples.dispatched
  = (Ok (Custom "draft"),
     mkWorld
       (mkInstance (Some []) (Some ∅)
          (Some (mkForm 0 (mkFormBody (Some (Samples.course 3))
                             [("title", "Logic")] true)))
          None)
       [NewForm (mkForm 0 (mkFormBody (Some (Samples.course 3))
                             [("title", "Logic")] true));
        Flash "Saved" "success"; Flash "Kept as a draft" "info"]
       1).
Proof.
  refine (FormView_post_form_valid_result MoreSamples.CourseDraft [] ∅
            Samples.dispatched _ _ (Some "Saved") _ _ _
            eq_refl eq_refl _ eq_refl eq_refl).
  by eexists.
Defined.

(** X6: when the form fails validation and the class's [form_invalid()]
    returns a truthy result, [post] returns that result: nothing is
    flashed and no template is rendered. *)
Theorem FormView_post_form_invalid_result
    (C : ViewClass) (args : list string) (kwargs : gmap string string)
    (w w1 : World) (f : Form)
    (h : Hook (option Response)) (events : list Event) (r : Response) :
  get_form C w = (Ok f, w1) →
  validate_on_submit f = false →
  def_form_invalid C = Some h →
  h (self (store_form f w1)) = (events, Ok (Some r)) →
  FormView_post C args kwargs w
  = (Ok r,
     mkWorld (self (store_form f w1)) (trace w1 ++ events) (next_ident w1)).
Proof.
  intros Hf Hv Hown Hh.
  unfold FormView_post. rewrite (bind_ok _ _ _ _ _ Hf).
  unfold bind at 1. unfold set_form.
  unfold bind at 1. unfold read_attr. simpl. rewrite Hv.
  unfold bind, form_invalid, call_hook. rewrite Hown. simpl in Hh |- *.
  by rewrite Hh.
Qed.

Lemma FormView_post_form_invalid_result_witness :
  FormView_post MoreSamples.ContactStrict [] ∅ Samples.dispatched
  = (Ok (Custom "rejected"),
     mkWorld
       (mkInstance (Some []) (Some ∅)
          (Some (mkForm 0 (mkFormBody None [("email", "nope")] false))) None)
       [NewForm (mkForm 0 (mkFormBody None [("email", "nope")] false))]
       1).
Proof.
  exact (FormView_post_form_invalid_result MoreSamples.ContactStrict [] ∅
           Samples.dispatched _ _ _ _ _ eq_refl eq_refl eq_refl eq_refl).
Defined.

(** X7: an invalid POST to a direct subclass of [FormView] that keeps the
    base [form_invalid()] makes exactly two calls: it builds the form and
    renders the template. The success message is not flashed. *)
Theorem FormView_post_invalid_calls
    (C : ViewClass) (args a0 : list string) (kwargs k0 : gmap string string)
    (w : World) (fc : FormClass) (t : string) (extra : gmap string Value) :
  base C = FormView →
  form_class C = Some fc →
  body_accepted (fc None) = false →
  def_form_invalid C = None →
  inst_args (self w) = Some a0 →
  inst_kwargs (self w) = Some k0 →
  returns (get_template_names C)
    (store_form (mkForm (next_ident w) (fc None)) w) t →
  returns (get_context C)
    (store_form (mkForm (next_ident w) (fc None)) w) extra →
  let f := mkForm (next_ident w) (fc None) in
  let context := <[context_form_name C := VForm f]> 
    (default_context (self (store_form f w)) k0 extra) in
  FormView_post C args kwargs w
  = (Ok (Page t context),
     mkWorld (self (store_form f w))
       (trace w ++ [NewForm f; RenderTemplate t context])
       (S (next_ident w))).
Proof.
  intros Hbase Hfc Hv Hown Ha Hk Ht Hextra f context.
  set (w2 := mkWorld (self (store_form f w)) (trace w ++ [NewForm f])
               (S (next_ident w))).
  assert (Hrun : FormView_post C args kwargs w = form_invalid_process C w2).
  { unfold FormView_post, get_form. rewrite Hbase.
    unfold FormView_get_form. rewrite Hfc.
    unfold bind at 1. unfold new_form. fold f.
    unfold bind at 1. unfold set_form.
    unfold bind at 1. unfold read_attr. simpl.
    unfold validate_on_submit. simpl. rewrite Hv.
    unfold bind at 1. unfold form_invalid. rewrite Hown. reflexivity. }
  rewrite Hrun. unfold form_invalid_process, FormView_form_invalid_process.
  unfold bind at 1. unfold read_attr at 1. simpl. rewrite Ha.
  unfold bind at 1. unfold read_attr at 1. simpl. rewrite Hk.
  unfold FormView_super_get, has_detail. rewrite Hbase.
  rewrite (TemplateView_get_run C a0 k0 w2 t context).
  - unfold emit, w2. simpl. by rewrite Ha, Hk, <- app_assoc.
  - exists w2. eapply reads_only_same_self; [auto with getters| |exact Ht].
    reflexivity.
  - unfold get_default_context. rewrite Hbase.
    unfold FormView_get_default_context, FormView_super_get_default_context,
      has_detail. rewrite Hbase.
    erewrite bind_ok; cycle 1.
    { apply TemplateView_get_default_context_run with (kw := k0); [exact Hk|].
      exists w2. eapply reads_only_same_self; [auto with getters| |exact Hextra].
      reflexivity. }
    reflexivity.
Qed.

Lemma FormView_post_invalid_calls_witness :
  trace (snd (FormView_post (Samples.Contact [("email", "nope")] false) [] ∅
                Samples.dispatched))
  = [NewForm (mkForm 0 (mkFormBody None [("email", "nope")] false));
     RenderTemplate "contact.html"
       (<["form" := VForm (mkForm 0 (mkFormBody None [("email", "nope")] false))]>
          (default_context
             (mkInstance (Some []) (Some ∅)
                (Some (mkForm 0 (mkFormBody None [("email", "nope")] false)))
                None) ∅ ∅))].
Proof.
  rewrite (FormView_post_invalid_calls
             (Samples.Contact [("email", "nope")] false) [] [] ∅ ∅
             Samples.dispatched _ "contact.html" ∅
             eq_refl eq_refl eq_refl eq_refl eq_refl eq_refl).
  - reflexivity.
  - by eexists.
  - by eexists.
Defined.

(** *** Create and delete views without a success URL *)

(** X8: a [CreateView] or [UpdateView] that supplies no success URL still
    saves the record on a valid POST and assigns [self.object]; only then
    does the request fail with [ImproperlyConfigured]. A [DeleteView]
    likewise deletes the record first. *)
Theorem CreateView_DeleteView_persist_before_failing
    (C : ViewClass) (args : list string) (kwargs : gmap string string)
    (w w1 : World) (f : Form) (msg : option string) (s : Session) :
  get_form C w = (Ok f, w1) →
  validate_on_submit f = true →
  returns (get_success_message C) (store_form f w1) msg →
  returns (form_valid C) (store_form f w1) None →
  returns (get_db_session C) (store_form f w1) s →
  def_get_success_url C = None →
  success_url C = None →
  (base C = CreateView ∨ base C = UpdateView →
   ∃ w' before,
     FormView_post C args kwargs w
     = (Raise (ImproperlyConfigured
          (class_name C ++
           " must define either `success_url` or `get_success_url()`")), w')
     ∧ trace w' = (before ++ [SaveObj f s])%list
     ∧ inst_object (self w') = Some (form_obj f))
  ∧ (base C = DeleteView →
     ∃ w' before,
       FormView_post C args kwargs w
       = (Raise (ImproperlyConfigured
            (class_name C ++
             " must define either `success_url` or `get_success_url()`")), w')
       ∧ trace w' = (before ++ [DeleteObj f s])%list
       ∧ inst_object (self w') = Some None).
Proof.
  intros Hf Hv Hmsg Hhook Hsess Hown Hurl.
  destruct (FormView_post_valid_branch C args kwargs w f w1 msg Hf Hv Hmsg Hhook)
    as (w3 & Hpost & Hs & _).
  assert (Hform : read_attr "form" inst_form w3 = (Ok f, w3)).
  { unfold read_attr. by rewrite Hs. }
  assert (Hsess3 : get_db_session C w3 = (Ok s, w3)).
  { eapply reads_only_same_self; [auto with getters| |exact Hsess].
    by rewrite Hs. }
  assert (Hfail : ∀ w0,
            inherits (base C) FormView = true →
            FormView_form_valid_process C w0
            = (Raise (ImproperlyConfigured
                 (class_name C ++
                  " must define either `success_url` or `get_success_url()`")),
               w0)).
  { intros w0 Hin. unfold FormView_form_valid_process, bind, get_success_url.
    by rewrite Hown, Hin, Hurl. }
  split.
  - intros Hbase.
    exists (store_object (form_obj f) (emit (SaveObj f s) w3)), (trace w3).
    split; [|split; reflexivity].
    rewrite Hpost.
    assert (form_valid_process C = CreateView_form_valid_process C) as ->.
    { unfold form_valid_process. by destruct Hbase as [-> | ->]. }
    unfold CreateView_form_valid_process.
    rewrite (bind_ok _ _ _ _ _ Hform), (bind_ok _ _ _ _ _ Hsess3).
    unfold bind at 1. unfold save_obj, call.
    assert (read_attr "form" inst_form (emit (SaveObj f s) w3)
            = (Ok f, emit (SaveObj f s) w3)) as Hform4.
    { unfold read_attr. simpl. by rewrite Hs. }
    rewrite (bind_ok _ _ _ _ _ Hform4).
    unfold bind at 1. unfold set_object. apply Hfail.
    by destruct Hbase as [-> | ->].
  - intros Hbase.
    exists (store_object None (emit (DeleteObj f s) w3)), (trace w3).
    split; [|split; reflexivity].
    rewrite Hpost. unfold form_valid_process. rewrite Hbase.
    unfold DeleteView_form_valid_process.
    rewrite (bind_ok _ _ _ _ _ Hform), (bind_ok _ _ _ _ _ Hsess3).
    unfold bind at 1. unfold delete_obj, call.
    unfold bind at 1. unfold set_object. apply Hfail. by rewrite Hbase.
Qed.

Lemma CreateView_DeleteView_persist_before_failing_witness :
  (∃ w' before,
     FormView_post MoreSamples.CourseAddNoUrl [] ∅ Samples.dispatched
     = (Raise (ImproperlyConfigured
          "CourseAddNoUrl must define either `success_url` or `get_success_url()`"),
        w')
     ∧ trace w'
       = (before
          ++ [SaveObj (mkForm 0 (mkFormBody (Some (Samples.course 3))
                                   [("title", "Logic")] true)) 7])%list
     ∧ inst_object (self w') = Some (Some (Samples.course 3)))
  ∧ (∃ w' before,
       FormView_post MoreSamples.CourseDeleteNoUrl [] ∅ Samples.dispatched
       = (Raise (ImproperlyConfigured
            "CourseAddNoUrl must define either `success_url` or `get_success_url()`"),
          w')
       ∧ trace w'
         = (before
            ++ [DeleteObj (mkForm 0 (mkFormBody (Some (Samples.course 3))
                                       [("title", "Logic")] true)) 7])%list
       ∧ inst_object (self w') = Some None).
Proof.
  split.
  - refine (proj1 (CreateView_DeleteView_persist_before_failing
                     MoreSamples.CourseAddNoUrl [] ∅ Samples.dispatched
                     _ _ None 7 eq_refl eq_refl _ _ _ eq_refl eq_refl) _).
    + by eexists.
    + by eexists.
    + by eexists.
    + by left.
  - refine (proj2 (CreateView_DeleteView_persist_before_failing
                     MoreSamples.CourseDeleteNoUrl [] ∅ Samples.dispatched
                     _ _ None 7 eq_refl eq_refl _ _ _ eq_refl eq_refl) _).
    + by eexists.
    + by eexists.
    + by eexists.
    + reflexivity.
Defined.

(** *** A form view without a form class *)

(** X9: a direct subclass of [FormView] that leaves [form_class] at [None]
    fails both GET and POST with a [TypeError], not with
    [ImproperlyConfigured], before anything else happens: nothing is
    flashed or rendered and no attribute is assigned. *)
Theorem FormView_without_form_class
    (C : ViewClass) (args : list string) (kwargs : gmap string string)
    (w : World) :
  base C = FormView →
  form_class C = None →
  FormView_get C args kwargs w
  = (Raise (TypeError "'NoneType' object is not callable"), w)
  ∧ FormView_post C args kwargs w
    = (Raise (TypeError "'NoneType' object is not callable"), w).
Proof.
  intros Hbase Hfc.
  assert (get_form C w = (Raise none_not_callable, w)) as H.
  { unfold get_form. rewrite Hbase. unfold FormView_get_form. by rewrite Hfc. }
  split.
  - unfold FormView_get. by rewrite (bind_raise _ _ _ _ _ H).
  - unfold FormView_post. by rewrite (bind_raise _ _ _ _ _ H).
Qed.

Lemma FormView_without_form_class_witness :
  FormView_get MoreSamples.Formless [] ∅ Samples.dispatched
  = (Raise (TypeError "'NoneType' object is not callable"), Samples.dispatched)
  ∧ FormView_post MoreSamples.Formless [] ∅ Samples.dispatched
    = (Raise (TypeError "'NoneType' object is not callable"), Samples.dispatched).
Proof.
  apply (FormView_without_form_class MoreSamples.Formless [] ∅
           Samples.dispatched); reflexivity.
Defined.

(** *** GET on form and detail views *)

(** X10: a GET on a direct subclass of [FormView] builds one form, with no
    record bound, stores it in [self.form] and renders the template with
    that form under [get_context_form_name()], over whatever
    [get_context()] supplies for that key; it validates and flashes
    nothing. *)
Theorem FormView_get_renders_new_form
    (C : ViewClass) (args : list string) (kwargs k0 : gmap string string)
    (w : World) (fc : FormClass) (t : string) (extra : gmap string Value) :
  base C = FormView →
  form_class C = Some fc →
  inst_kwargs (self w) = Some k0 →
  returns (get_template_names C)
    (store_form (mkForm (next_ident w) (fc None)) w) t →
  returns (get_context C)
    (store_form (mkForm (next_ident w) (fc None)) w) extra →
  let f := mkForm (next_ident w) (fc None) in
  let context := <[context_form_name C := VForm f]> 
    (default_context (self (store_form f w)) k0 extra) in
  FormView_get C args kwargs w
  = (Ok (Page t context),
     mkWorld (self (store_form f w))
       (trace w ++ [NewForm f; RenderTemplate t context])
       (S (next_ident w)))
  ∧ context !! context_form_name C = Some (VForm f).
Proof.
  intros Hbase Hfc Hk Ht Hextra f context.
  split; [|apply lookup_insert_eq].
  set (w2 := mkWorld (self (store_form f w)) (trace w ++ [NewForm f])
               (S (next_ident w))).
  assert (Hrun : FormView_get C args kwargs w = TemplateView_get C args kwargs w2).
  { unfold FormView_get, get_form. rewrite Hbase.
    unfold FormView_get_form. rewrite Hfc.
    unfold bind at 1. unfold new_form. fold f.
    unfold bind at 1. unfold set_form.
    unfold FormView_super_get, has_detail. by rewrite Hbase. }
  rewrite Hrun.
  rewrite (TemplateView_get_run C args kwargs w2 t context).
  - unfold emit, w2. simpl. by rewrite <- app_assoc.
  - exists w2. eapply reads_only_same_self; [auto with getters| |exact Ht].
    reflexivity.
  - unfold get_default_context. rewrite Hbase.
    unfold FormView_get_default_context, FormView_super_get_default_context,
      has_detail. rewrite Hbase.
    erewrite bind_ok; cycle 1.
    { apply TemplateView_get_default_context_run with (kw := k0); [exact Hk|].
      exists w2. eapply reads_only_same_self; [auto with getters| |exact Hextra].
      reflexivity. }
    reflexivity.
Qed.

Lemma FormView_get_renders_new_form_witness :
  FormView_get (Samples.Contact [] false) [] ∅ Samples.dispatched
  = (Ok (Page "contact.html"
           (<["form" := VForm (mkForm 0 (mkFormBody None [] false))]>
              (default_context
             (mkInstance (Some []) (Some ∅)
                (Some (mkForm 0 (mkFormBody None [] false))) None) ∅ ∅))),
     mkWorld
       (mkInstance (Some []) (Some ∅)
          (Some (mkForm 0 (mkFormBody None [] false))) None)
       [NewForm (mkForm 0 (mkFormBody None [] false));
        RenderTemplate "contact.html"
          (<["form" := VForm (mkForm 0 (mkFormBody None [] false))]>
             (default_context
             (mkInstance (Some []) (Some ∅)
                (Some (mkForm 0 (mkFormBody None [] false))) None) ∅ ∅))]
       1).
Proof.
  refine (proj1 (FormView_get_renders_new_form (Samples.Contact [] false) [] ∅ ∅
                   Samples.dispatched _ "contact.html" ∅
                   eq_refl eq_refl eq_refl _ _)).
  - by eexists.
  - by eexists.
Defined.

(** X11: a GET on a direct subclass of [DetailView] calls [get_object()]
    twice: the first result is assigned to [self.object], the second, taken
    after that assignment, is the one the context holds under
    [get_context_object_name()]. A class without [get_object()] fails with
    [ImproperlyConfigured] before the template name is looked at. *)
Theorem DetailView_get_renders_object
    (C : ViewClass) (args : list string) (kwargs k0 : gmap string string)
    (w : World) :
  base C = DetailView →
  inst_kwargs (self w) = Some k0 →
  (∀ o o' t extra,
     returns (get_object C) w o →
     returns (get_template_names C) (store_object (Some o) w) t →
     returns (get_context C) (store_object (Some o) w) extra →
     returns (get_object C) (store_object (Some o) w) o' →
     let context :=
       <[context_object_name C := VObject o']> 
         (default_context (self (store_object (Some o) w)) k0 extra) in
     DetailView_get C args kwargs w
     = (Ok (Page t context),
        emit (RenderTemplate t context) (store_object (Some o) w))
     ∧ inst_object (self (store_object (Some o) w)) = Some (Some o))
  ∧ (def_get_object C = None →
     DetailView_get C args kwargs w
     = (Raise (ImproperlyConfigured
          (class_name C ++ " must define `get_object()`")), w)).
Proof.
  intros Hbase Hk. split.
  - intros o o' t extra Ho Ht Hextra Ho' context. split; [|reflexivity].
    apply reads_only_returns in Ho; [|auto with getters].
    apply reads_only_returns in Ho'; [|auto with getters].
    unfold DetailView_get. rewrite (bind_ok _ _ _ _ _ Ho).
    unfold bind at 1. unfold set_object.
    apply TemplateView_get_run; [exact Ht|].
    unfold get_default_context. rewrite Hbase.
    unfold DetailView_get_default_context.
    erewrite bind_ok; cycle 1.
    { apply TemplateView_get_default_context_run with (kw := k0);
        [exact Hk | exact Hextra]. }
    by rewrite (bind_ok _ _ _ _ _ Ho').
  - intros Hown. unfold DetailView_get, bind, get_object.
    by rewrite Hown, Hbase.
Qed.

Lemma DetailView_get_renders_object_witness :
  DetailView_get MoreSamples.CourseDetail [] ∅ Samples.dispatched
  = (Ok (Page "course.html"
           (<["object" := VObject (Samples.course 1)]> (default_context
              (mkInstance (Some []) (Some ∅) None (Some (Some (Samples.course 1))))
              ∅ ∅))),
     emit (RenderTemplate "course.html"
             (<["object" := VObject (Samples.course 1)]> (default_context
              (mkInstance (Some []) (Some ∅) None (Some (Some (Samples.course 1))))
              ∅ ∅)))
       (store_object (Some (Samples.course 1)) Samples.dispatched)).
Proof.
  destruct (DetailView_get_renders_object MoreSamples.CourseDetail [] ∅ ∅
              Samples.dispatched eq_refl eq_refl) as [Hrun _].
  refine (proj1 (Hrun (Samples.course 1) (Samples.course 1) "course.html" ∅
                   _ _ _ _)); by eexists.
Defined.

(** X12: a GET on a [CreateView], [UpdateView] or [DeleteView] calls
    [get_object()] three times: for the record the form is built on, for
    [self.object], and for the context. The context holds the record under
    [get_context_object_name()] and the form under
    [get_context_form_name()]; the form is assigned last, so it wins when
    the two names are equal. *)
Theorem CreateView_get_renders_object_and_form
    (C : ViewClass) (args : list string) (kwargs k0 : gmap string string)
    (w : World) (fc : FormClass) (o1 o2 o3 : Obj)
    (t : string) (extra : gmap string Value) :
  has_detail C = true →
  form_class C = Some fc →
  inst_kwargs (self w) = Some k0 →
  returns (get_object C) w o1 →
  returns (get_object C)
    (store_form (mkForm (next_ident w) (fc (Some o1))) w) o2 →
  returns (get_template_names C)
    (store_object (Some o2)
       (store_form (mkForm (next_ident w) (fc (Some o1))) w)) t →
  returns (get_context C)
    (store_object (Some o2)
       (store_form (mkForm (next_ident w) (fc (Some o1))) w)) extra →
  returns (get_object C)
    (store_object (Some o2)
       (store_form (mkForm (next_ident w) (fc (Some o1))) w)) o3 →
  let f := mkForm (next_ident w) (fc (Some o1)) in
  let context :=
    <[context_form_name C := VForm f]>
      (<[context_object_name C := VObject o3]> 
         (default_context
            (self (store_object (Some o2) (store_form f w))) k0 extra)) in
  FormView_get C args kwargs w
  = (Ok (Page t context),
     mkWorld (self (store_object (Some o2) (store_form f w)))
       (trace w ++ [NewForm f; RenderTemplate t context])
       (S (next_ident w)))
  ∧ context !! context_form_name C = Some (VForm f)
  ∧ (context_object_name C ≠ context_form_name C →
     context !! context_object_name C = Some (VObject o3)).
Proof.
  intros Hd Hfc Hk Ho1 Ho2 Ht Hextra Ho3 f context.
  split; [|split; [apply lookup_insert_eq|]];
    [|intros Hne; unfold context;
      by rewrite lookup_insert_ne, lookup_insert_eq by done].
  apply reads_only_returns in Ho1; [|auto with getters].
  set (w1 := mkWorld (self w) (trace w ++ [NewForm f]) (S (next_ident w))).
  assert (Hform : get_form C w = (Ok f, w1)).
  { unfold get_form, has_detail in *.
    destruct (base C); try discriminate;
      unfold CreateView_get_form, DeleteView_get_form;
      rewrite (bind_ok _ _ _ _ _ Ho1), Hfc; reflexivity. }
  set (wf := store_form f w1).
  assert (Ho2' : get_object C wf = (Ok o2, wf)).
  { eapply reads_only_same_self; [auto with getters| |exact Ho2]. reflexivity. }
  set (wo := store_object (Some o2) wf).
  unfold FormView_get. rewrite (bind_ok _ _ _ _ _ Hform).
  unfold bind at 1. unfold set_form. fold wf.
  unfold FormView_super_get. rewrite Hd.
  unfold DetailView_get. rewrite (bind_ok _ _ _ _ _ Ho2').
  unfold bind at 1. unfold set_object. fold wo.
  rewrite (TemplateView_get_run C args kwargs wo t context).
  - unfold emit, wo, wf, w1. simpl. by rewrite <- app_assoc.
  - exists wo. eapply reads_only_same_self; [auto with getters| |exact Ht].
    reflexivity.
  - assert (get_default_context C = FormView_get_default_context C) as ->.
    { unfold get_default_context, has_detail in *.
      by destruct (base C). }
    unfold FormView_get_default_context, FormView_super_get_default_context.
    rewrite Hd. unfold DetailView_get_default_context.
    assert (TemplateView_get_default_context C wo
            = (Ok (default_context (self wo) k0 extra), wo)) as Hbase.
    { apply TemplateView_get_default_context_run; [exact Hk|].
      exists wo. eapply reads_only_same_self; [auto with getters| |exact Hextra].
      reflexivity. }
    assert (get_object C wo = (Ok o3, wo)) as Ho3'.
    { eapply reads_only_same_self; [auto with getters| |exact Ho3].
      reflexivity. }
    unfold bind at 1. unfold bind at 1. rewrite Hbase.
    unfold bind at 1. rewrite Ho3'. reflexivity.
Qed.

Lemma CreateView_get_renders_object_and_form_witness :
  fst (FormView_get Samples.CourseAdd [] ∅ Samples.dispatched)
  = Ok (Page "course_add.html"
          (<["form" := VForm (mkForm 0 (mkFormBody (Some (Samples.course 3))
                                          [("title", "Logic")] true))]>
             (<["object" := VObject (Samples.course 3)]>
                (default_context
                   (mkInstance (Some []) (Some ∅)
                      (Some (mkForm 0 (mkFormBody (Some (Samples.course 3))
                                         [("title", "Logic")] true)))
                      (Some (Some (Samples.course 3))))
                   ∅ ∅)))).
Proof.
  destruct (CreateView_get_renders_object_and_form Samples.CourseAdd [] ∅ ∅
              Samples.dispatched _ (Samples.course 3) (Samples.course 3)
              (Samples.course 3) "course_add.html" ∅
              eq_refl eq_refl eq_refl) as [Hrun _].
  - by eexists.
  - by eexists.
  - by eexists.
  - by eexists.
  - by eexists.
  - by rewrite Hrun.
Defined.

(** *** The calls of a valid POST *)

(** X15: on a valid POST with the base [form_valid()], the success message
    is flashed first (when it is non-empty); a [FormView] then redirects, a
    [CreateView] or [UpdateView] saves the record and redirects, a
    [DeleteView] deletes it and redirects. These are all the calls made
    after the form was built, in this order. *)
Theorem FormView_post_valid_calls
    (C : ViewClass) (args : list string) (kwargs : gmap string string)
    (w w1 : World) (f : Form) (msg : option string) (u : string) :
  get_form C w = (Ok f, w1) →
  validate_on_submit f = true →
  returns (get_success_message C) (store_form f w1) msg →
  def_form_valid C = None →
  (base C = FormView →
   returns (get_success_url C) (store_form f w1) u →
   FormView_post C args kwargs w
   = (Ok (Redirect u default_code),
      mkWorld (self (store_form f w1))
        (trace w1 ++ flashes msg ++ [RedirectTo u default_code])
        (next_ident w1)))
  ∧ (∀ s,
       base C = CreateView ∨ base C = UpdateView →
       returns (get_db_session C) (store_form f w1) s →
       returns (get_success_url C)
         (store_object (form_obj f) (store_form f w1)) u →
       FormView_post C args kwargs w
       = (Ok (Redirect u default_code),
          mkWorld (self (store_object (form_obj f) (store_form f w1)))
            (trace w1 ++ flashes msg
             ++ [SaveObj f s; RedirectTo u default_code])
            (next_ident w1)))
  ∧ (∀ s,
       base C = DeleteView →
       returns (get_db_session C) (store_form f w1) s →
       returns (get_success_url C) (store_object None (store_form f w1)) u →
       FormView_post C args kwargs w
       = (Ok (Redirect u default_code),
          mkWorld (self (store_object None (store_form f w1)))
            (trace w1 ++ flashes msg
             ++ [DeleteObj f s; RedirectTo u default_code])
            (next_ident w1))).
Proof.
  intros Hf Hv Hmsg Hown.
  set (wf := store_form f w1).
  set (w2 := mkWorld (self wf) (trace wf ++ flashes msg) (next_ident wf)).
  assert (Hpost : FormView_post C args kwargs w = form_valid_process C w2).
  { unfold FormView_post. rewrite (bind_ok _ _ _ _ _ Hf).
    unfold bind at 1. unfold set_form. fold wf.
    unfold bind at 1. unfold read_attr. simpl. rewrite Hv.
    rewrite (bind_ok _ _ _ _ _ (flash_success_message_run _ _ _ Hmsg)).
    fold w2. unfold bind at 1. unfold form_valid. by rewrite Hown. }
  assert (Hform : read_attr "form" inst_form w2 = (Ok f, w2)) by reflexivity.
  rewrite Hpost. unfold form_valid_process. split; [|split].
  - intros Hbase Hurl. rewrite Hbase. unfold FormView_form_valid_process.
    erewrite bind_ok; cycle 1.
    { eapply reads_only_same_self; [auto with getters| |exact Hurl].
      reflexivity. }
    unfold redirect, bind, call, ret, emit, w2. simpl.
    by rewrite <- app_assoc.
  - intros s Hbase Hsess Hurl.
    assert ((match base C with
             | CreateView | UpdateView => CreateView_form_valid_process C
             | DeleteView => DeleteView_form_valid_process C
             | _ => FormView_form_valid_process C
             end) = CreateView_form_valid_process C) as ->
      by (by destruct Hbase as [-> | ->]).
    unfold CreateView_form_valid_process.
    rewrite (bind_ok _ _ _ _ _ Hform).
    erewrite bind_ok; cycle 1.
    { eapply reads_only_same_self; [auto with getters| |exact Hsess].
      reflexivity. }
    unfold bind at 1. unfold save_obj, call.
    unfold bind at 1. unfold read_attr. simpl.
    unfold bind at 1. unfold set_object.
    unfold FormView_form_valid_process.
    erewrite bind_ok; cycle 1.
    { eapply reads_only_same_self; [auto with getters| |exact Hurl].
      reflexivity. }
    unfold redirect, bind, call, ret, emit, store_object, with_self. simpl.
    by rewrite <- !app_assoc.
  - intros s Hbase Hsess Hurl. rewrite Hbase.
    unfold DeleteView_form_valid_process.
    rewrite (bind_ok _ _ _ _ _ Hform).
    erewrite bind_ok; cycle 1.
    { eapply reads_only_same_self; [auto with getters| |exact Hsess].
      reflexivity. }
    unfold bind at 1. unfold delete_obj, call.
    unfold bind at 1. unfold set_object.
    unfold FormView_form_valid_process.
    erewrite bind_ok; cycle 1.
    { eapply reads_only_same_self; [auto with getters| |exact Hurl].
      reflexivity. }
    unfold redirect, bind, call, ret, emit, store_object, with_self. simpl.
    by rewrite <- !app_assoc.
Qed.

Lemma FormView_post_valid_calls_witness :
  trace (snd (FormView_post (with_success_message "Saved" Samples.CourseAdd)
                [] ∅ Samples.dispatched))
  = [NewForm (mkForm 0 (mkFormBody (Some (Samples.course 3))
                          [("title", "Logic")] true));
     Flash "Saved" "success";
     SaveObj (mkForm 0 (mkFormBody (Some (Samples.course 3))
                          [("title", "Logic")] true)) 7;
     RedirectTo "/courses" default_code].
Proof.
  destruct (FormView_post_valid_calls
              (with_success_message "Saved" Samples.CourseAdd) [] ∅
              Samples.dispatched _ _ (Some "Saved") "/courses"
              eq_refl eq_refl) as (_ & Hcreate & _).
  - by eexists.
  - reflexivity.
  - rewrite (Hcreate 7); [reflexivity|by left|by eexists|by eexists].
Defined.

(** *** The order of the configuration errors of a list view *)

(** X16: a GET on a [ListView] resolves the template name before the
    object list: without a template name the error is the one about
    [template_name], whether or not a model is declared; with a template
    name but no model it is the one about [model]. In both cases nothing
    is rendered. *)
Theorem ListView_get_error_order
    (C : ViewClass) (args : list string) (kwargs k0 : gmap string string)
    (w : World) :
  base C = ListView →
  (def_get_template_names C = None → template_name C = None →
   TemplateView_get C args kwargs w
   = (Raise (ImproperlyConfigured
        (class_name C ++
         " must define either `template_name` or `get_template_names()`")), w))
  ∧ (∀ t extra,
       returns (get_template_names C) w t →
       inst_kwargs (self w) = Some k0 →
       returns (get_context C) w extra →
       def_get_object_list C = None → model C = None →
       TemplateView_get C args kwargs w
       = (Raise (ImproperlyConfigured
            (class_name C ++
             " must define either `model` or `get_object_list()`")), w)).
Proof.
  intros Hbase. split.
  - intros Hown Ht. unfold TemplateView_get, bind, get_template_names.
    by rewrite Hown, Hbase, Ht.
  - intros t extra Ht Hk Hextra Hown Hm.
    apply reads_only_returns in Ht; [|auto with getters].
    unfold TemplateView_get. rewrite (bind_ok _ _ _ _ _ Ht).
    unfold get_default_context. rewrite Hbase.
    unfold ListView_get_default_context.
    unfold bind at 1. unfold bind at 1.
    rewrite (TemplateView_get_default_context_run _ _ _ _ Hk Hextra).
    unfold bind, get_object_list. by rewrite Hown, Hbase, Hm.
Qed.

Lemma ListView_get_error_order_witness :
  TemplateView_get (declare ListView "Courses") [] ∅ Samples.dispatched
  = (Raise (ImproperlyConfigured
       "Courses must define either `template_name` or `get_template_names()`"),
     Samples.dispatched)
  ∧ TemplateView_get
      (with_template_name "courses.html" (declare ListView "Courses"))
      [] ∅ Samples.dispatched
    = (Raise (ImproperlyConfigured
         "Courses must define either `model` or `get_object_list()`"),
       Samples.dispatched).
Proof.
  split.
  - apply (ListView_get_error_order (declare ListView "Courses") [] ∅ ∅
             Samples.dispatched eq_refl); reflexivity.
  - apply (proj2 (ListView_get_error_order
                    (with_template_name "courses.html" (declare ListView "Courses"))
                    [] ∅ ∅ Samples.dispatched eq_refl)
             "courses.html" ∅); try reflexivity; by eexists.
Defined.
(** ** Theorems about the demo app *)

(** C9: the three specified demo requests. GET [/] without [user_name]
    renders greeting "Hello" with the empty name; GET [/Hi?user_name=Bob]
    renders greeting "Hi" with name "Bob"; POST [/] with the form field
    [user_name=Alice] renders greeting "Hello" with name "Alice". *)
Theorem demo_three_cases :
  Demo.serve (Demo.mkRequest GET "/" [] [])
    = Demo.Handled (inr (Demo.greeting_page "Hello" EmptyString))
  ∧ Demo.serve (Demo.mkRequest GET "/Hi" [("user_name", "Bob")] [])
    = Demo.Handled (inr (Demo.greeting_page "Hi" "Bob"))
  ∧ Demo.serve (Demo.mkRequest POST "/" [] [("user_name", "Alice")])
    = Demo.Handled (inr (Demo.greeting_page "Hello" "Alice")).
Proof. repeat split; reflexivity. Qed.

(** C10: the handling of a missing [user_name] differs between verbs: a POST
    whose form body has no [user_name] field raises [KeyError], whatever the
    greeting and the query string; a GET without the query parameter renders
    with the empty name. *)
Theorem demo_missing_user_name (request : Demo.Request) (greeting_arg : option string) :
  (Demo.method request = POST →
   multidict_first "user_name" (Demo.form request) = None →
   Demo.greeting_user request greeting_arg = inl (Demo.KeyError "user_name"))
  ∧ (Demo.method request = GET →
     multidict_first "user_name" (Demo.args request) = None →
     Demo.greeting_user request greeting_arg
       = inr (Demo.greeting_page (default "Hello" greeting_arg) EmptyString)).
Proof.
  split; intros Hm Hk; unfold Demo.greeting_user.
  - rewrite decide_True by done.
    unfold Demo.multidict_getitem. by rewrite Hk.
  - rewrite decide_False by (rewrite Hm; discriminate).
    unfold multidict_get. by rewrite Hk.
Qed.

Lemma demo_missing_user_name_witness :
  Demo.greeting_user (Demo.mkRequest POST "/" [("user_name", "Bob")] []) None
  = inl (Demo.KeyError "user_name")
  ∧ Demo.greeting_user (Demo.mkRequest GET "/" [] [("user_name", "Bob")]) None
    = inr (Demo.greeting_page "Hello" EmptyString).
Proof.
  split.
  - apply (proj1 (demo_missing_user_name
                    (Demo.mkRequest POST "/" [("user_name", "Bob")] []) None));
      reflexivity.
  - apply (proj2 (demo_missing_user_name
                    (Demo.mkRequest GET "/" [] [("user_name", "Bob")]) None));
      reflexivity.
Defined.

(** ** Further properties of the demo app *)

(** X14: the handler fails only for a POST whose form body has no
    [user_name] field. Whenever it answers, it renders [greeting.html] with
    the greeting of the URL, or "Hello", and with the first [user_name]
    value of the form body for a POST and of the query string, or the empty
    text, for every other verb; a POST never reads the query string and the
    other verbs never read the form body. *)
Theorem greeting_user_outcomes
    (request : Demo.Request) (greeting_arg : option string) :
  ((∃ page, Demo.greeting_user request greeting_arg = inr page)
   ↔ (Demo.method request ≠ POST
      ∨ is_Some (multidict_first "user_name" (Demo.form request))))
  ∧ (∀ page,
       Demo.greeting_user request greeting_arg = inr page →
       page
       = Demo.greeting_page (default "Hello" greeting_arg)
           (multidict_get "user_name" EmptyString
              (if decide (Demo.method request = POST)
               then Demo.form request
               else Demo.args request))).
Proof.
  unfold Demo.greeting_user, Demo.multidict_getitem, multidict_get,
    Demo.render_template, Demo.greeting_page.
  destruct (decide (Demo.method request = POST)) as [Hm|Hm].
  - destruct (multidict_first "user_name" (Demo.form request)) as [v|] eqn:E.
    + split; [|by intros page [= <-]]. split; eauto.
    + split; [|done]. split.
      * by intros [page H].
      * intros [H|[v H]]; done.
  - split; [|by intros page [= <-]]. split; eauto.
Qed.
